(** * Habit-series AI orchestration backend: a shallow embedding

    The development follows the layers of the repository:

    - [JS]: the fragment of the JavaScript value universe the program
      manipulates (strings as sequences of UTF-16 code units, binary64
      numbers, JSON-like values plus [undefined], thrown errors);
    - the domain policy [isHabitSeriesFinal] and the pass table;
    - the defensive validator [validateAIOutput];
    - the provider router [getAdapterForModel];
    - the Gemini token and energy accounting;
    - the [HabitSeries] entity and its factories;
    - the creative prompt builder;
    - the use case [createHabitSeries], as a program over the calls it
      makes to its collaborators, with an interpreter that records them;
    - the calls of the router and of the Gemini adapter behind it.

    What the sources import from elsewhere (host built-ins, modules of
    the repository that are not at hand) is a parameter of the model:
    the classes [Runtime], [Imports], [Vendor] and [OpenAI].  [Host],
    [Sample] and [SampleVendor] give executable instances, on which the
    scenarios are run.

    [console.log] tracing is write-only and is left out throughout. *)

From Stdlib Require Import ZArith NArith List String Ascii Bool.
From Stdlib Require Import Floats DecimalString DecimalNat Lia.
Import ListNotations.

Set Implicit Arguments.
Set Warnings "-register-all".

(* ================================================================== *)
(** * JavaScript values *)
(* ================================================================== *)

Module JS.

(** ** Strings

    A JavaScript string is a finite sequence of UTF-16 code units;
    [length], [startsWith], [trim] and [===] all work on code units. *)

Definition jsstring := list N.

(** Code units of a UTF-8 byte sequence (a code point beyond the basic
    plane becomes a surrogate pair). *)
Fixpoint decodeUTF8 (bytes : list N) : jsstring :=
  match bytes with
  | [] => []
  | b0 :: rest =>
      if (b0 <? 128)%N then b0 :: decodeUTF8 rest
      else
        match rest with
        | [] => [b0]
        | b1 :: rest1 =>
            if (b0 <? 224)%N then
              ((b0 - 192) * 64 + (b1 - 128))%N :: decodeUTF8 rest1
            else
              match rest1 with
              | [] => [b0; b1]
              | b2 :: rest2 =>
                  if (b0 <? 240)%N then
                    ((b0 - 224) * 4096 + (b1 - 128) * 64 + (b2 - 128))%N
                      :: decodeUTF8 rest2
                  else
                    match rest2 with
                    | [] => [b0; b1; b2]
                    | b3 :: rest3 =>
                        let cp := ((b0 - 240) * 262144 + (b1 - 128) * 4096
                                   + (b2 - 128) * 64 + (b3 - 128) - 65536)%N in
                        (55296 + cp / 1024)%N :: (56320 + cp mod 1024)%N
                          :: decodeUTF8 rest3
                    end
              end
        end
  end.

(** The code units of a text that this file stores in UTF-8. *)
Definition utf16 (s : string) : jsstring :=
  decodeUTF8 (map N_of_ascii (list_ascii_of_string s)).

(** A string literal of the source, [lit "..."]: its code units,
    computed where the literal stands. *)
Notation "'lit' s" :=
  (ltac:(let units := eval vm_compute in (utf16 s) in exact units))
  (at level 10, s at level 9, only parsing).

Fixpoint eqb (a b : jsstring) : bool :=
  match a, b with
  | [], [] => true
  | x :: a', y :: b' => N.eqb x y && eqb a' b'
  | _, _ => false
  end.

(** [String.prototype.startsWith] with the default position 0. *)
Fixpoint startsWith (s searchString : jsstring) : bool :=
  match searchString, s with
  | [], _ => true
  | p :: searchString', c :: s' => N.eqb c p && startsWith s' searchString'
  | _ :: _, [] => false
  end.

(** ECMAScript WhiteSpace and LineTerminator code points (all of them
    lie in the basic plane, so each is one code unit). *)
Definition isWhiteSpace (c : N) : bool :=
  ((9 <=? c) && (c <=? 13) || (c =? 32) || (c =? 160) || (c =? 5760)
   || (8192 <=? c) && (c <=? 8202) || (c =? 8232) || (c =? 8233)
   || (c =? 8239) || (c =? 8287) || (c =? 12288) || (c =? 65279))%N.

Fixpoint trimStart (s : jsstring) : jsstring :=
  match s with
  | [] => []
  | c :: s' => if isWhiteSpace c then trimStart s' else s
  end.

Definition trimEnd (s : jsstring) : jsstring := rev (trimStart (rev s)).

(** [String.prototype.trim]. *)
Definition trim (s : jsstring) : jsstring := trimEnd (trimStart s).

(** Decimal rendering of an array index inside a template literal. *)
Definition indexToString (i : nat) : jsstring :=
  utf16 (NilEmpty.string_of_uint (Nat.to_uint i)).

(** ** Values *)

Inductive JSValue : Type :=
| JSUndefined
| JSNull
| JSBoolean (b : bool)
| JSNumber (x : float)
| JSString (s : jsstring)
| JSArray (elements : list JSValue)
| JSObject (properties : list (jsstring * JSValue)).

(** ** Thrown errors: the constructor used and the message. *)

Inductive ErrorClass := Error | TypeError | SyntaxError | ValidationError.

Record JSError := mkError { errClass : ErrorClass; errMessage : jsstring }.

(** The result of evaluating something that may throw. *)
Inductive Outcome (A : Type) : Type :=
| Ok (a : A)
| Thrown (e : JSError).
Arguments Ok {A} a.
Arguments Thrown {A} e.

Definition bind {A B} (m : Outcome A) (k : A -> Outcome B) : Outcome B :=
  match m with
  | Ok a => k a
  | Thrown e => Thrown e
  end.

(** The [typeof] operator. *)
Definition typeof (v : JSValue) : jsstring :=
  match v with
  | JSUndefined => lit "undefined"
  | JSNull => lit "object"
  | JSBoolean _ => lit "boolean"
  | JSNumber _ => lit "number"
  | JSString _ => lit "string"
  | JSArray _ => lit "object"
  | JSObject _ => lit "object"
  end.

(** ToBoolean: what [!v] negates. *)
Definition truthy (v : JSValue) : bool :=
  match v with
  | JSUndefined | JSNull => false
  | JSBoolean b => b
  | JSNumber x => negb (PrimFloat.eqb x 0%float || negb (PrimFloat.eqb x x))
  | JSString s => match s with [] => false | _ => true end
  | JSArray _ | JSObject _ => true
  end.

Fixpoint lookup (key : jsstring) (properties : list (jsstring * JSValue))
  : option JSValue :=
  match properties with
  | [] => None
  | (k, v) :: rest => if eqb k key then Some v else lookup key rest
  end.

(** Reading a named property, [v.key].  Reading from [undefined] or
    [null] throws; an own property of an object is returned; anything
    else yields [undefined].  The keys read in this program ([title],
    [description], [actions], [name], [difficulty], [content]) are
    neither array indices nor defined on any built-in prototype. *)
Definition get (v : JSValue) (key : jsstring) : Outcome JSValue :=
  match v with
  | JSUndefined =>
      Thrown (mkError TypeError
        (lit "Cannot read properties of undefined (reading '" ++ key ++ lit "')"))
  | JSNull =>
      Thrown (mkError TypeError
        (lit "Cannot read properties of null (reading '" ++ key ++ lit "')"))
  | JSObject properties =>
      Ok (match lookup key properties with Some x => x | None => JSUndefined end)
  | _ => Ok JSUndefined
  end.

(** The method call [v.trim()]. *)
Definition callTrim (v : JSValue) : Outcome jsstring :=
  match v with
  | JSString s => Ok (trim s)
  | JSUndefined =>
      Thrown (mkError TypeError
        (lit "Cannot read properties of undefined (reading 'trim')"))
  | JSNull =>
      Thrown (mkError TypeError
        (lit "Cannot read properties of null (reading 'trim')"))
  | _ => Thrown (mkError TypeError (lit "trim is not a function"))
  end.

(** ** Numbers: IEEE 754 binary64 *)

(** The double nearest to an integer (ties to even). *)
Definition Number_ofZ (z : Z) : float :=
  SF2Prim (binary_normalize prec emax z 0 false).

(** The integer [floor (m * 2^e + h / 2)] for [e < 0]. *)
Definition floorScaled (m e h : Z) : Z :=
  (2 * m + h * 2 ^ (- e)) / 2 ^ (1 - e).

Definition signedZero (negative : bool) : float :=
  if negative then (-0)%float else 0%float.

(** [Math.round]: the closest integral number, ties towards +infinity;
    the sign of the argument is kept on a zero result. *)
Definition Math_round (x : float) : float :=
  match Prim2SF x with
  | S754_finite s m e =>
      if (0 <=? e)%Z then x
      else
        let n := floorScaled (if s then Z.neg m else Z.pos m) e 1 in
        if (n =? 0)%Z then signedZero s else Number_ofZ n
  | _ => x
  end.

(** [Math.ceil]: the least integral number not below the argument. *)
Definition Math_ceil (x : float) : float :=
  match Prim2SF x with
  | S754_finite s m e =>
      if (0 <=? e)%Z then x
      else
        let n := (- floorScaled (if s then Z.pos m else Z.neg m) e 0)%Z in
        if (n =? 0)%Z then signedZero s else Number_ofZ n
  | _ => x
  end.

End JS.

Import JS.

Declare Scope js_scope.
Delimit Scope js_scope with js.
Notation "x <- m ;; k" := (bind m (fun x => k))
  (at level 61, m at next level, right associativity) : js_scope.
Open Scope js_scope.

(* ================================================================== *)
(** * Domain policy (PublicHabitSeriesPolicy) *)
(* ================================================================== *)

Definition isHabitSeriesFinal (functionType : jsstring) : bool :=
  JS.eqb functionType (lit "habit_series_structure").

(* ================================================================== *)
(** * The output validator (CreateHabitSeries use case) *)
(* ================================================================== *)

(** The verdict object: [{ valid: true }] or [{ valid: false, error }]. *)
Record Verdict := mkVerdict { valid : bool; error : option jsstring }.

Definition accepted : Verdict := mkVerdict true None.
Definition rejected (msg : jsstring) : Verdict := mkVerdict false (Some msg).

(** The recurring test [typeof x !== 'string' || !x.trim()]; the right
    operand is evaluated only when the left one is false. *)
Definition notText (x : JSValue) : Outcome bool :=
  if negb (JS.eqb (typeof x) (lit "string")) then Ok true
  else (t <- callTrim x ;; Ok (negb (truthy (JSString t)))).

(** The test [!x || typeof x !== 'object']. *)
Definition notObject (x : JSValue) : bool :=
  negb (truthy x) || negb (JS.eqb (typeof x) (lit "object")).

(** The body of the [for] loop, from index [i] on; [actions] is what is
    left of [data.actions] from that index. *)
Fixpoint validateActions (actions : list JSValue) (i : nat) : Outcome Verdict :=
  match actions with
  | [] => Ok accepted
  | action :: rest =>
      if notObject action then
        Ok (rejected (lit "actions[" ++ indexToString i ++ lit "] is not an object"))
      else
        name <- get action (lit "name") ;;
        badName <- notText name ;;
        if badName then
          Ok (rejected (lit "actions[" ++ indexToString i ++ lit "].name invalid"))
        else
          description <- get action (lit "description") ;;
          badDescription <- notText description ;;
          if badDescription then
            Ok (rejected (lit "actions[" ++ indexToString i ++ lit "].description invalid"))
          else
            difficulty <- get action (lit "difficulty") ;;
            badDifficulty <- notText difficulty ;;
            if badDifficulty then
              Ok (rejected (lit "actions[" ++ indexToString i ++ lit "].difficulty invalid"))
            else validateActions rest (S i)
  end.

Definition validateAIOutput (data : JSValue) : Outcome Verdict :=
  if notObject data then Ok (rejected (lit "Output is not an object"))
  else
    title <- get data (lit "title") ;;
    badTitle <- notText title ;;
    if badTitle then Ok (rejected (lit "Invalid or missing title"))
    else
      description <- get data (lit "description") ;;
      badDescription <- notText description ;;
      if badDescription then Ok (rejected (lit "Invalid or missing description"))
      else
        actions <- get data (lit "actions") ;;
        match actions with
        | JSArray elements =>
            if (List.length elements <? 3) || (5 <? List.length elements) then
              Ok (rejected (lit "actions length out of bounds"))
            else validateActions elements 0
        | _ => Ok (rejected (lit "actions must be an array"))
        end.

(** ** The validator on values whose property reads run code

    [JSValue] holds the JSON-like values.  The host has more: an object
    with accessor properties (getters), or a Proxy with a [get] trap.
    Such a value is truthy, its [typeof] is "object", and reading a
    property of it runs code that returns a value or throws.  The
    accessors are given as a function of the key, which answers every
    read of a key alike. *)
Inductive HostValue :=
| Plain (v : JSValue)
| Accessors (read : jsstring -> Outcome JSValue).

(** [!x || typeof x !== 'object'] and [x.key] on a host value. *)
Definition HostValue_notObject (x : HostValue) : bool :=
  match x with
  | Plain v => notObject v
  | Accessors _ => false
  end.

Definition HostValue_get (x : HostValue) (key : jsstring) : Outcome JSValue :=
  match x with
  | Plain v => get v key
  | Accessors read => read key
  end.

(** [validateAIOutput] again, its argument a host value. *)
Definition validateAIOutputOnHost (data : HostValue) : Outcome Verdict :=
  if HostValue_notObject data then Ok (rejected (lit "Output is not an object"))
  else
    title <- HostValue_get data (lit "title") ;;
    badTitle <- notText title ;;
    if badTitle then Ok (rejected (lit "Invalid or missing title"))
    else
      description <- HostValue_get data (lit "description") ;;
      badDescription <- notText description ;;
      if badDescription then Ok (rejected (lit "Invalid or missing description"))
      else
        actions <- HostValue_get data (lit "actions") ;;
        match actions with
        | JSArray elements =>
            if (List.length elements <? 3) || (5 <? List.length elements) then
              Ok (rejected (lit "actions length out of bounds"))
            else validateActions elements 0
        | _ => Ok (rejected (lit "actions must be an array"))
        end.

(** An object whose [title] is a getter that throws:
    [{ get title() { throw new Error('boom') } }]. *)
Definition throwingTitle : HostValue :=
  Accessors (fun key =>
    if JS.eqb key (lit "title") then Thrown (mkError Error (lit "boom"))
    else Ok JSUndefined).

(** ** The contract, as the specification words it *)

(** A property of a structured value, [undefined] when there is none. *)
Definition field (v : JSValue) (key : jsstring) : JSValue :=
  match v with
  | JSObject properties =>
      match lookup key properties with Some x => x | None => JSUndefined end
  | _ => JSUndefined
  end.

(** A non-null structured object. *)
Definition isObject (v : JSValue) : bool :=
  match v with
  | JSArray _ | JSObject _ => true
  | _ => false
  end.

(** A string that is not empty once trimmed. *)
Definition isText (v : JSValue) : bool :=
  match v with
  | JSString s => match trim s with [] => false | _ => true end
  | _ => false
  end.

Definition isArray (v : JSValue) : bool :=
  match v with JSArray _ => true | _ => false end.

Definition lengthInBounds (v : JSValue) : bool :=
  match v with
  | JSArray elements => (3 <=? List.length elements) && (List.length elements <=? 5)
  | _ => false
  end.

Definition elementsOf (v : JSValue) : list JSValue :=
  match v with JSArray elements => elements | _ => [] end.

(** A rule of the contract: whether the candidate meets it, and the
    reason reported when it does not. *)
Record Rule := mkRule { passes : bool; reason : jsstring }.

Definition actionRules (i : nat) (action : JSValue) : list Rule :=
  [ mkRule (isObject action)
      (lit "actions[" ++ indexToString i ++ lit "] is not an object");
    mkRule (isText (field action (lit "name")))
      (lit "actions[" ++ indexToString i ++ lit "].name invalid");
    mkRule (isText (field action (lit "description")))
      (lit "actions[" ++ indexToString i ++ lit "].description invalid");
    mkRule (isText (field action (lit "difficulty")))
      (lit "actions[" ++ indexToString i ++ lit "].difficulty invalid") ].

Fixpoint actionsRules (actions : list JSValue) (i : nat) : list Rule :=
  match actions with
  | [] => []
  | action :: rest => actionRules i action ++ actionsRules rest (S i)
  end.

(** The rules in the order the specification lists them: non-null
    object, title, description, actions is a sequence, its length is in
    [3,5], then each action in sequence order. *)
Definition rules (candidate : JSValue) : list Rule :=
  [ mkRule (isObject candidate) (lit "Output is not an object");
    mkRule (isText (field candidate (lit "title"))) (lit "Invalid or missing title");
    mkRule (isText (field candidate (lit "description")))
      (lit "Invalid or missing description");
    mkRule (isArray (field candidate (lit "actions"))) (lit "actions must be an array");
    mkRule (lengthInBounds (field candidate (lit "actions")))
      (lit "actions length out of bounds") ]
  ++ actionsRules (elementsOf (field candidate (lit "actions"))) 0.

(** The first rule of a list that is not met. *)
Definition firstViolation (rs : list Rule) : option Rule :=
  find (fun r => negb (passes r)) rs.

Definition verdictOf (violation : option Rule) : Verdict :=
  match violation with
  | None => accepted
  | Some r => rejected (reason r)
  end.

(** A well-formed candidate: non-empty trimmed title and description,
    and an actions array of 3 to 5 entries, each with non-empty trimmed
    name, description and difficulty. *)
Definition hasText (v : JSValue) (key : jsstring) : Prop :=
  exists s, field v key = JSString s /\ trim s <> [].

Definition wellFormedAction (action : JSValue) : Prop :=
  hasText action (lit "name") /\ hasText action (lit "description")
  /\ hasText action (lit "difficulty").

Definition wellFormedCandidate (candidate : JSValue) : Prop :=
  hasText candidate (lit "title") /\ hasText candidate (lit "description")
  /\ exists actions,
       field candidate (lit "actions") = JSArray actions
       /\ 3 <= List.length actions <= 5
       /\ Forall wellFormedAction actions.

(** The same test on one action, as a boolean. *)
Definition wellFormedActionB (action : JSValue) : bool :=
  isObject action && isText (field action (lit "name"))
  && isText (field action (lit "description"))
  && isText (field action (lit "difficulty")).

(** Sample candidates. *)
Definition textProp (k v : string) : jsstring * JSValue :=
  (utf16 k, JSString (utf16 v)).

Definition sampleAction (n : string) : JSValue :=
  JSObject [textProp "name" n; textProp "description" "d"; textProp "difficulty" "easy"].

Definition candidate (title : string) (actions : list JSValue) : JSValue :=
  JSObject [textProp "title" title; textProp "description" "D";
            (lit "actions", JSArray actions)].

Definition threeActions : list JSValue :=
  [sampleAction "a0"; sampleAction "a1"; sampleAction "a2"].

(** An action with no [difficulty], and one whose [difficulty] is a
    number. *)
Definition actionWithoutDifficulty : JSValue :=
  JSObject [textProp "name" "a1"; textProp "description" "d"].

Definition actionWithNumericDifficulty : JSValue :=
  JSObject [textProp "name" "a1"; textProp "description" "d";
            (lit "difficulty", JSNumber 2)].

(* ================================================================== *)
(** * The provider router (AIProviderRouter) *)
(* ================================================================== *)

(** The two adapter instances the router holds, [this.openaiAdapter]
    and [this.geminiAdapter]. *)
Inductive Adapter := openaiAdapter | geminiAdapter.

(** The double-quote character. *)
Definition dq : jsstring := [34%N].

(** The two errors of the resolution: the model name is missing, and
    no adapter is configured for the model. *)
Definition invalidModel : JSError :=
  mkError Error (lit "INVALID_MODEL: Model name is required").

Definition unknownModelProvider (model : jsstring) : JSError :=
  mkError Error
    (lit "UNKNOWN_MODEL_PROVIDER: No adapter configured for model "
       ++ dq ++ model ++ dq ++ lit ". "
       ++ lit "Expected prefix: 'gpt-', 'o1-', or 'gemini-'").

Definition getAdapterForModel (model : JSValue) : Outcome Adapter :=
  if negb (truthy model) || negb (JS.eqb (typeof model) (lit "string")) then
    Thrown invalidModel
  else
    match model with
    | JSString m =>
        (* OpenAI models *)
        if startsWith m (lit "gpt-") || startsWith m (lit "o1-") then
          Ok openaiAdapter
        (* Gemini models *)
        else if startsWith m (lit "gemini-") then
          Ok geminiAdapter
        (* fail fast on unknown model families *)
        else Thrown (unknownModelProvider m)
    | _ =>
        (* only a string has the method; the guard above leaves no
           other value *)
        Thrown (mkError TypeError (lit "model.startsWith is not a function"))
    end.

(** The adapter [callAI(userId, messages, options)] delegates to:
    [options.model], or "gemini-2.5-flash" when it is [undefined], is
    resolved by [getAdapterForModel]. *)
Definition callAI_adapter (optionsModel : JSValue) : Outcome Adapter :=
  let model :=
    match optionsModel with
    | JSUndefined => JSString (lit "gemini-2.5-flash")
    | given => given
    end in
  getAdapterForModel model.

(* ================================================================== *)
(** * Gemini token and energy accounting (GeminiAdapter) *)
(* ================================================================== *)

(** [tokens = round(text.length / 3.7)], and 0 for a missing, empty or
    non-string text. *)
Definition calculateGeminiTokens (text : JSValue) : float :=
  if negb (truthy text) || negb (JS.eqb (typeof text) (lit "string")) then 0%float
  else
    match text with
    | JSString s =>
        Math_round (Number_ofZ (Z.of_nat (List.length s)) / 0x1.d99999999999ap+1)%float
    | _ => nan (* no other value passes the guard *)
    end.

(** [energy = ceil(round(responseTokens + promptTokens * 0.30) / 100)]. *)
Definition calculateGeminiEnergy (prompt response : JSValue) : float :=
  let tokensPrompt := calculateGeminiTokens prompt in
  let tokensResponse := calculateGeminiTokens response in
  let totalTokens :=
    Math_round (tokensResponse + tokensPrompt * 0x1.3333333333333p-2)%float in
  let energy := Math_ceil (totalTokens / 100)%float in
  energy.

(** The same accounting, from the two lengths alone. *)
Definition tokensOfLength (n : nat) : float :=
  match n with
  | O => 0%float
  | _ => Math_round (Number_ofZ (Z.of_nat n) / 0x1.d99999999999ap+1)%float
  end.

Definition energyOfLengths (promptLength responseLength : nat) : float :=
  Math_ceil
    (Math_round (tokensOfLength responseLength
                 + tokensOfLength promptLength * 0x1.3333333333333p-2) / 100)%float.

(* ================================================================== *)
(** * AI pass selection policy (PublicHabitSeriesPolicy, section 2) *)
(* ================================================================== *)

Record PassConfig := mkPassConfig {
  model : jsstring;
  temperature : float;
  maxTokens : float;
  forceJson : option bool;
  passDescription : jsstring
}.

(** The keys of [HABIT_SERIES_AI_POLICIES]. *)
Inductive PassKey := habit_series_creative | habit_series_structure | json_conversion.

Definition HABIT_SERIES_AI_POLICIES (key : PassKey) : PassConfig :=
  match key with
  | habit_series_creative =>
      mkPassConfig (lit "gemini-2.5-flash") 0x1.999999999999ap-1 1500 None
        (lit "Habit series creative exploration pass")
  | habit_series_structure =>
      mkPassConfig (lit "gemini-2.5-pro") 0 1500 None
        (lit "Habit series structural consolidation pass")
  | json_conversion =>
      mkPassConfig (lit "gpt-4o-mini") 0 1500 (Some true)
        (lit "Strict text-to-JSON normalization pass")
  end.

Definition getHabitSeriesAIConfig (functionType : PassKey) : PassConfig :=
  HABIT_SERIES_AI_POLICIES functionType.

(* ================================================================== *)
(** * What the sources under study import *)
(* ================================================================== *)

(** A chat message, [{ role, content }]. *)
Record Message := mkMessage { role : jsstring; content : jsstring }.

(** Milliseconds since the epoch: the time value of a [Date]. *)
Definition Date := Z.

(** Built-ins of the host the program calls. *)
Class Runtime := {
  (** [JSON.parse]; it throws a [SyntaxError] on a malformed text. *)
  JSON_parse : jsstring -> Outcome JSValue;
  (** The conversion applied to a value inside a template literal. *)
  ToString : JSValue -> jsstring;
  (** [Date.prototype.toISOString]. *)
  Date_toISOString : Date -> jsstring
}.

(** Modules of the repository that the sources import and that are not
    part of the sources at hand: the Action, Rank and Difficulty value
    objects, the full model selection policy, the two later prompt
    builders, and the collaborators handed in as [deps]. *)
Class Imports := {
  Action : Type;
  ActionDTO : Type;
  Action_fromAIOutput : JSValue -> jsstring -> Outcome Action;
  Action_toDTO : Action -> ActionDTO;
  Rank : Type;
  Rank_BRONZE : Rank;
  calculateRankFromScore : float -> Rank;
  Difficulty_LOW : jsstring;
  Difficulty_MEDIUM : jsstring;
  Difficulty_HIGH : jsstring;
  ModelConfig : Type;
  getModelConfig : jsstring -> ModelConfig;
  StructureHabitSeriesPrompt : jsstring -> JSValue -> list Message;
  JsonSchemaHabitSeriesPrompt : JSValue -> JSValue -> list Message;
  UserRepository : Type;
  HabitSeriesRepository : Type;
  EnergyRepository : Type;
  AIProvider : Type
}.

(* ================================================================== *)
(** * The HabitSeries entity *)
(* ================================================================== *)

Section Entity.
Context {runtime : Runtime} {imports : Imports}.

(** The fields hold what the constructor is given at run time; the
    TypeScript annotations are erased. *)
Record HabitSeries := mkHabitSeries {
  id : JSValue;
  title : JSValue;
  description : JSValue;
  actions : list Action;
  rank : Rank;
  totalScore : float;
  createdAt : Date;
  lastActivityAt : Date
}.

Record HabitSeriesDTO := mkHabitSeriesDTO {
  dto_id : JSValue;
  dto_title : JSValue;
  dto_description : JSValue;
  dto_actions : list ActionDTO;
  dto_rank : Rank;
  dto_totalScore : float;
  dto_createdAt : jsstring;
  dto_lastActivityAt : jsstring
}.

(** [array.map(callback)] for a callback that may throw: the elements
    are visited in order with their index, and the first throw ends the
    traversal. *)
Fixpoint mapWithIndex {A : Type} (callback : JSValue -> nat -> Outcome A)
    (elements : list JSValue) (index : nat) : Outcome (list A) :=
  match elements with
  | [] => Ok []
  | element :: rest =>
      x <- callback element index ;;
      xs <- mapWithIndex callback rest (S index) ;;
      Ok (x :: xs)
  end.

(** The method call [v.map(callback)]. *)
Definition callMap {A : Type} (v : JSValue) (callback : JSValue -> nat -> Outcome A)
  : Outcome (list A) :=
  match v with
  | JSArray elements => mapWithIndex callback elements 0
  | JSUndefined =>
      Thrown (mkError TypeError
        (lit "Cannot read properties of undefined (reading 'map')"))
  | JSNull =>
      Thrown (mkError TypeError
        (lit "Cannot read properties of null (reading 'map')"))
  | _ => Thrown (mkError TypeError (lit "input.actions.map is not a function"))
  end.

(** [HabitSeries.fromAIOutput(id, input)]; [now] is the instant
    [new Date()] reads. *)
Definition fromAIOutput (now : Date) (id : JSValue) (input : JSValue)
  : Outcome HabitSeries :=
  inputActions <- get input (lit "actions") ;;
  actions <- callMap inputActions (fun actionInput index =>
               Action_fromAIOutput actionInput
                 (ToString id ++ lit "_action_" ++ indexToString index)) ;;
  inputTitle <- get input (lit "title") ;;
  inputDescription <- get input (lit "description") ;;
  Ok (mkHabitSeries id inputTitle inputDescription actions Rank_BRONZE 0 now now).

(** The argument of [HabitSeries.create]; an absent optional field is
    [None]. *)
Record CreateParams := mkCreateParams {
  params_id : JSValue;
  params_title : JSValue;
  params_description : JSValue;
  params_actions : list Action;
  params_rank : option Rank;
  params_totalScore : option float;
  params_createdAt : option Date;
  params_lastActivityAt : option Date
}.

(** The operator [x ?? d]. *)
Definition nullish {A : Type} (x : option A) (d : A) : A :=
  match x with Some a => a | None => d end.

Definition create (now : Date) (params : CreateParams) : HabitSeries :=
  mkHabitSeries (params_id params) (params_title params)
    (params_description params) (params_actions params)
    (nullish (params_rank params) Rank_BRONZE)
    (nullish (params_totalScore params) 0%float)
    (nullish (params_createdAt params) now)
    (nullish (params_lastActivityAt params) now).

Definition calculateRank (series : HabitSeries) : Rank :=
  calculateRankFromScore (totalScore series).

Definition toDTO (series : HabitSeries) : HabitSeriesDTO :=
  mkHabitSeriesDTO (id series) (title series) (description series)
    (map Action_toDTO (actions series)) (rank series) (totalScore series)
    (Date_toISOString (createdAt series))
    (Date_toISOString (lastActivityAt series)).

End Entity.

(* ================================================================== *)
(** * The creative prompt (CreativeHabitSeriesPrompt) *)
(* ================================================================== *)

Definition nl : jsstring := [10%N].

(** [Array.prototype.join]. *)
Fixpoint join (separator : jsstring) (parts : list jsstring) : jsstring :=
  match parts with
  | [] => []
  | [part] => part
  | part :: rest => part ++ separator ++ join separator rest
  end.

Section Prompt.
Context {imports : Imports}.

(** The parameters have their documented types: [language] and
    [assistantContext] are strings, [testData] is a record of strings,
    given by its entries in enumeration order. *)
Definition CreativeHabitSeriesPrompt (language assistantContext : jsstring)
    (testData : list (jsstring * jsstring)) : list Message :=
  let dificultadBaja := Difficulty_LOW in
  let dificultadMedia := Difficulty_MEDIUM in
  let dificultadAlta := Difficulty_HIGH in
  let contextSection :=
    if truthy (JSString (trim assistantContext)) then
      nl ++ nl ++ lit "---" ++ nl
        ++ lit "BACKGROUND CONTEXT (for reference only, do not reply to this):" ++ nl
        ++ assistantContext ++ nl ++ lit "---" ++ nl
    else [] in
  let systemPrompt :=
    if JS.eqb language (lit "en") then
    lit "LANGUAGE CONSTRAINT (MANDATORY): You MUST generate ALL content in ENGLISH. This is non-negotiable.

You are Arvi. Create ONE complete thematic habit series based on the user's test responses.
"
    ++ contextSection
    ++ lit "
FORMAT RULES (VERY STRICT):
- ONE title only.
- ONE explanatory description, max **10 lines** (≈120–180 words).
- Between **3 and 5 actions**.
- Each action must have:
  • A short action name
  • One description of max **5 lines**
  • A difficulty: "
    ++ dq
    ++ dificultadBaja
    ++ dq
    ++ lit " (easy/quick), "
    ++ dq
    ++ dificultadMedia
    ++ dq
    ++ lit " (moderate effort), or "
    ++ dq
    ++ dificultadAlta
    ++ dq
    ++ lit " (challenging/demanding)
- NO lists outside the action list.
- NO intros ("
    ++ dq
    ++ lit "Here is your series"
    ++ dq
    ++ lit "), NO conclusions.
- ONLY the content of the series.

CONTENT RULES:
The series must:
- Reflect the user's test answers.
- Follow neuroscientific and consistency principles.
- Progress logically from easier to harder.
- Remain practical, personalized and realistic.

Your output must be a clean, structured description, but NOT JSON.
Just produce the text, respecting the limits.
ALL OUTPUT MUST BE IN ENGLISH."
    else
    lit "RESTRICCIÓN DE IDIOMA (OBLIGATORIO): DEBES generar TODO el contenido en ESPAÑOL. Esto es innegociable.

Eres Arvi. Crea UNA serie temática de hábitos completa.
"
    ++ contextSection
    ++ lit "
REGLAS DE FORMATO (MUY ESTRICTAS):
- SOLO un título.
- SOLO una descripción explicativa de la serie, máximo **10 líneas** (≈120–180 palabras).
- Entre **3 y 5 acciones**.
- Cada acción debe incluir:
  • Un nombre corto
  • Una descripción de máximo **5 líneas**
  • Una dificultad: "
    ++ dq
    ++ dificultadBaja
    ++ dq
    ++ lit " (fácil/rápida), "
    ++ dq
    ++ dificultadMedia
    ++ dq
    ++ lit " (esfuerzo moderado), o "
    ++ dq
    ++ dificultadAlta
    ++ dq
    ++ lit " (exigente/desafiante)
- SIN intros del tipo ("
    ++ dq
    ++ lit "Aquí tienes la serie"
    ++ dq
    ++ lit "), SIN cierres formales.
- SIN listas externas que no sean las acciones.
- SOLO el contenido de la serie.

REGLAS DE CONTENIDO:
La serie debe:
- Reflejar las respuestas del test del usuario.
- Basarse en principios de constancia y neurociencia.
- Mantener una progresión natural de dificultad.
- Ser práctica, personalizada y realista.

Tu salida debe ser texto limpio, estructurado y limitado.
NO es JSON aún.
TODO EL CONTENIDO DEBE ESTAR EN ESPAÑOL." in
  let entries := join (lit "; ") (map (fun '(k, v) => k ++ lit ": " ++ v) testData) in
  let userPrompt :=
    if JS.eqb language (lit "en") then lit "Test data: " ++ entries
    else lit "Datos del test: " ++ entries in
  [ mkMessage (lit "system") systemPrompt;
    mkMessage (lit "user") userPrompt ].

End Prompt.


(* ================================================================== *)
(** * The use case (createHabitSeries) *)
(* ================================================================== *)

(** Schema-like structure handed to the normalization prompt. *)
Definition stringType : JSValue := JSObject [(lit "type", JSString (lit "string"))].

Definition HABIT_SERIES_SCHEMA : JSValue :=
  JSObject
    [ (lit "type", JSString (lit "object"));
      (lit "required",
        JSArray [JSString (lit "title"); JSString (lit "description");
                 JSString (lit "actions")]);
      (lit "properties",
        JSObject
          [ (lit "title", stringType);
            (lit "description", stringType);
            (lit "actions",
              JSObject
                [ (lit "type", JSString (lit "array"));
                  (lit "minItems", JSNumber 3);
                  (lit "maxItems", JSNumber 5);
                  (lit "items",
                    JSObject
                      [ (lit "type", JSString (lit "object"));
                        (lit "required",
                          JSArray [JSString (lit "name");
                                   JSString (lit "description");
                                   JSString (lit "difficulty")]);
                        (lit "properties",
                          JSObject
                            [ (lit "name", stringType);
                              (lit "description", stringType);
                              (lit "difficulty", stringType) ]) ]) ]) ]) ].

(** The request payload, with the documented types of its fields; a
    field that is absent (or [undefined]) is [None]. *)
Record Payload := mkPayload {
  language : option jsstring;
  assistantContext : option jsstring;
  testData : option (list (jsstring * jsstring))
}.

Section UseCase.
Context {runtime : Runtime} {imports : Imports}.

(** The injected collaborators; one that is absent is [None]. *)
Record Deps := mkDeps {
  userRepository : option UserRepository;
  habitSeriesRepository : option HabitSeriesRepository;
  energyRepository : option EnergyRepository;
  aiProvider : option AIProvider
}.

(** The calls that leave the use case, each with the type of what it
    gives back: the AI execution service (a response object, read for
    its [content]), the clock read by [new Date()], the habit-series
    repository (the persisted entity, on which [toDTO] is called) and
    the user repository. *)
Inductive Call : Type -> Type :=
| generateAIResponse (userId : jsstring) (messages : list Message)
    (config : ModelConfig) (ai : AIProvider) (energy : EnergyRepository)
  : Call JSValue
| newDate : Call Date
| createFromAI (repository : HabitSeriesRepository) (userId : jsstring)
    (entity : HabitSeries)
  : Call HabitSeries
| incrementActiveSeries (repository : UserRepository) (userId : jsstring)
  : Call unit.

(** A run of the use case: it returns, throws (an [async] function
    then rejects), or makes a call and goes on with what comes back. *)
Inductive Prog (A : Type) : Type :=
| Return (a : A)
| Throw (e : JSError)
| Perform (X : Type) (call : Call X) (k : X -> Prog A).
Arguments Return {A} a.
Arguments Throw {A} e.
Arguments Perform {A X} call k.

(** A synchronous step that may throw. *)
Definition lift {A B : Type} (m : Outcome A) (k : A -> Prog B) : Prog B :=
  match m with
  | Ok a => k a
  | Thrown e => Throw e
  end.

(** [x || ''] on an optional string. *)
Definition orEmpty (x : option jsstring) : jsstring :=
  match x with Some s => s | None => [] end.

(** The [try] block of step 3: reading [schemaResponse.content] and
    parsing it when it is a string. *)
Definition parseContent (schemaResponse : JSValue) : Outcome JSValue :=
  content <- get schemaResponse (lit "content") ;;
  if JS.eqb (typeof content) (lit "string") then
    match content with
    | JSString text => JSON_parse text
    | _ => Ok content
    end
  else Ok content.

(** The three AI passes: the prompt, the configuration of the pass, and
    the call to the AI execution service. *)
Definition creativePass (userId language : jsstring)
    (assistantContext : option jsstring) (testData : list (jsstring * jsstring))
    (aiProvider : AIProvider) (energyRepository : EnergyRepository) : Call JSValue :=
  let creativeMessages :=
    CreativeHabitSeriesPrompt language (orEmpty assistantContext) testData in
  let creativeConfig := getModelConfig (lit "habit_series_creative") in
  generateAIResponse userId creativeMessages creativeConfig aiProvider energyRepository.

Definition structurePass (userId language : jsstring) (rawText : JSValue)
    (aiProvider : AIProvider) (energyRepository : EnergyRepository) : Call JSValue :=
  let structureMessages := StructureHabitSeriesPrompt language rawText in
  let structureConfig := getModelConfig (lit "habit_series_structure") in
  generateAIResponse userId structureMessages structureConfig aiProvider energyRepository.

Definition schemaPass (userId : jsstring) (structured : JSValue)
    (aiProvider : AIProvider) (energyRepository : EnergyRepository) : Call JSValue :=
  let schemaMessages := JsonSchemaHabitSeriesPrompt structured HABIT_SERIES_SCHEMA in
  let schemaConfig := getModelConfig (lit "json_conversion") in
  generateAIResponse userId schemaMessages schemaConfig aiProvider energyRepository.

Definition createHabitSeries (userId : jsstring) (payload : option Payload)
    (deps : option Deps) : Prog HabitSeriesDTO :=
  match deps with
  | None =>
      Throw (mkError TypeError
        (lit "Cannot destructure property 'userRepository' of 'deps' as it is undefined."))
  | Some deps =>
  match userRepository deps, habitSeriesRepository deps,
        energyRepository deps, aiProvider deps with
  | Some userRepository, Some habitSeriesRepository,
    Some energyRepository, Some aiProvider =>
    match payload with
    | Some (mkPayload (Some ((_ :: _) as language)) assistantContext (Some testData)) =>
      (* Step 2: AI execution, three passes *)
      Perform (creativePass userId language assistantContext testData
                 aiProvider energyRepository) (fun creativeResponse =>
      lift (get creativeResponse (lit "content")) (fun rawText =>
      Perform (structurePass userId language rawText
                 aiProvider energyRepository) (fun structureResponse =>
      lift (get structureResponse (lit "content")) (fun structured =>
      Perform (schemaPass userId structured
                 aiProvider energyRepository) (fun schemaResponse =>
      (* Step 3: post-AI defensive validation *)
      match parseContent schemaResponse with
      | Thrown _ => Throw (mkError ValidationError (lit "AI output is not valid JSON"))
      | Ok parsed =>
        lift (validateAIOutput parsed) (fun validation =>
        if negb (valid validation) then
          Throw (mkError ValidationError
                   (lit "AI output validation failed: "
                      ++ match error validation with
                         | Some reason => reason
                         | None => lit "undefined"
                         end))
        else
          (* Step 4: persistence.  The factory is called with the one
             argument [parsed]: its first parameter [id] receives it and
             its second parameter [input] is [undefined]. *)
          Perform newDate (fun now =>
          lift (fromAIOutput now parsed JSUndefined) (fun entity =>
          Perform (createFromAI habitSeriesRepository userId entity) (fun persisted =>
          (* Step 5: domain side effects *)
          Perform (incrementActiveSeries userRepository userId) (fun _ =>
          (* Step 6: result *)
          Return (toDTO persisted))))))
      end)))))
    | _ =>
      (* !payload?.language || !payload?.testData *)
      Throw (mkError ValidationError (lit "Missing required payload fields"))
    end
  | _, _, _, _ =>
    (* !userRepository || !habitSeriesRepository || !energyRepository
       || !aiProvider *)
    Throw (mkError ValidationError (lit "Missing required dependencies"))
  end
  end.

(** ** Running a program against its collaborators *)

(** A call that was made. *)
Definition Event : Type := { X : Type & Call X }.

(** The collaborators: what each call gives back, or the error it
    throws (for an awaited call: rejects with), given the calls made
    before it. *)
Definition World : Type := forall X : Type, list Event -> Call X -> Outcome X.

Fixpoint run {A : Type} (world : World) (history : list Event) (p : Prog A)
  : Outcome A * list Event :=
  match p with
  | Return a => (Ok a, history)
  | Throw e => (Thrown e, history)
  | Perform call k =>
      match world _ history call with
      | Ok x => run world (history ++ [existT _ _ call]) (k x)
      | Thrown e => (Thrown e, history ++ [existT _ _ call])
      end
  end.

Definition isAICall (event : Event) : bool :=
  match projT2 event with
  | generateAIResponse _ _ _ _ _ => true
  | _ => false
  end.

Definition isRepositoryCall (event : Event) : bool :=
  match projT2 event with
  | createFromAI _ _ _ => true
  | incrementActiveSeries _ _ => true
  | _ => false
  end.

(** The two conditions of the entry guard: a collaborator is absent;
    [language] or [testData] is missing from the payload (for
    [language], absent or empty). *)
Definition missingDependency (deps : Deps) : bool :=
  match userRepository deps, habitSeriesRepository deps,
        energyRepository deps, aiProvider deps with
  | Some _, Some _, Some _, Some _ => false
  | _, _, _, _ => true
  end.

Definition missingPayloadField (payload : option Payload) : bool :=
  match payload with
  | Some (mkPayload (Some (_ :: _)) _ (Some _)) => false
  | _ => true
  end.

(** A call of the use case that passes the entry guard: every
    collaborator wired, [language] and [testData] given. *)
Definition completeRequest (userId language : jsstring)
    (assistantContext : option jsstring) (testData : list (jsstring * jsstring))
    (userRepository : UserRepository) (habitSeriesRepository : HabitSeriesRepository)
    (energyRepository : EnergyRepository) (aiProvider : AIProvider)
  : Prog HabitSeriesDTO :=
  createHabitSeries userId
    (Some (mkPayload (Some language) assistantContext (Some testData)))
    (Some (mkDeps (Some userRepository) (Some habitSeriesRepository)
             (Some energyRepository) (Some aiProvider))).

(** The events of the three AI passes, in order, for the texts the
    first two answered with. *)
Definition aiTrace (userId language : jsstring) (assistantContext : option jsstring)
    (testData : list (jsstring * jsstring)) (rawText structured : JSValue)
    (aiProvider : AIProvider) (energyRepository : EnergyRepository) : list Event :=
  [ existT _ _ (creativePass userId language assistantContext testData
                  aiProvider energyRepository);
    existT _ _ (structurePass userId language rawText aiProvider energyRepository);
    existT _ _ (schemaPass userId structured aiProvider energyRepository) ].

(** The AI execution service answers the three passes: the first two
    with responses whose [content] is [rawText] and [structured], the
    third with [schemaResponse]. *)
Definition passesAnswer (world : World) (history : list Event)
    (userId language : jsstring) (assistantContext : option jsstring)
    (testData : list (jsstring * jsstring))
    (aiProvider : AIProvider) (energyRepository : EnergyRepository)
    (rawText structured schemaResponse : JSValue) : Prop :=
  let creative :=
    creativePass userId language assistantContext testData aiProvider energyRepository in
  let structure := structurePass userId language rawText aiProvider energyRepository in
  let schema := schemaPass userId structured aiProvider energyRepository in
  exists creativeResponse structureResponse,
    world _ history creative = Ok creativeResponse
    /\ get creativeResponse (lit "content") = Ok rawText
    /\ world _ (history ++ [existT _ _ creative]) structure = Ok structureResponse
    /\ get structureResponse (lit "content") = Ok structured
    /\ world _ ((history ++ [existT _ _ creative]) ++ [existT _ _ structure]) schema
       = Ok schemaResponse.

End UseCase.

(* ================================================================== *)
(** * An executable host *)
(* ================================================================== *)

(** Concrete built-ins, so that the model can be run on examples: a
    parser for the JSON grammar, the conversion of values to strings
    and the ISO rendering of a time value. *)

Module Host.

Definition isJSONSpace (c : N) : bool :=
  ((c =? 32) || (c =? 9) || (c =? 10) || (c =? 13))%N.

Fixpoint skipSpace (s : jsstring) : jsstring :=
  match s with
  | c :: rest => if isJSONSpace c then skipSpace rest else s
  | [] => []
  end.

Definition isDigit (c : N) : bool := ((48 <=? c) && (c <=? 57))%N.

Definition hexValue (c : N) : option N :=
  if isDigit c then Some (c - 48)%N
  else if ((97 <=? c) && (c <=? 102))%N then Some (c - 87)%N
  else if ((65 <=? c) && (c <=? 70))%N then Some (c - 55)%N
  else None.

Definition hex4 (a b c d : N) : option N :=
  match hexValue a, hexValue b, hexValue c, hexValue d with
  | Some x, Some y, Some z, Some w => Some (((x * 16 + y) * 16 + z) * 16 + w)%N
  | _, _, _, _ => None
  end.

(** The characters of a string after its opening quote, up to and
    without the closing one; [seen] holds them in reverse. *)
Fixpoint stringBody (s seen : jsstring) : option (jsstring * jsstring) :=
  match s with
  | [] => None
  | c :: rest =>
      if (c =? 34)%N then Some (rev seen, rest)
      else if (c =? 92)%N then
        match rest with
        | e :: rest1 =>
            if ((e =? 34) || (e =? 92) || (e =? 47))%N then stringBody rest1 (e :: seen)
            else if (e =? 98)%N then stringBody rest1 (8%N :: seen)
            else if (e =? 102)%N then stringBody rest1 (12%N :: seen)
            else if (e =? 110)%N then stringBody rest1 (10%N :: seen)
            else if (e =? 114)%N then stringBody rest1 (13%N :: seen)
            else if (e =? 116)%N then stringBody rest1 (9%N :: seen)
            else if (e =? 117)%N then
              match rest1 with
              | h1 :: h2 :: h3 :: h4 :: rest2 =>
                  match hex4 h1 h2 h3 h4 with
                  | Some u => stringBody rest2 (u :: seen)
                  | None => None
                  end
              | _ => None
              end
            else None
        | [] => None
        end
      else if (c <? 32)%N then None
      else stringBody rest (c :: seen)
  end.

(** A run of decimal digits: its value, how many there are, the rest. *)
Fixpoint digits (s : jsstring) (value : Z) (count : nat) : Z * nat * jsstring :=
  match s with
  | c :: rest =>
      if isDigit c then digits rest (10 * value + Z.of_N (c - 48)) (S count)
      else (value, count, s)
  | [] => (value, count, s)
  end.

(** The double nearest to [m * 10^e10], for [0 <= m]. *)
Definition decimalToNumber (negative : bool) (m e10 : Z) : float :=
  let x :=
    if (m =? 0)%Z then 0%float
    else if (0 <=? e10)%Z then Number_ofZ (m * 10 ^ e10)
    else
      let d := (10 ^ (- e10))%Z in
      let k := Z.max 0 (Z.log2 d + 66 - Z.log2 m) in
      let q := ((m * 2 ^ k) / d)%Z in
      let sticky := if ((m * 2 ^ k) mod d =? 0)%Z then 0%Z else 1%Z in
      SF2Prim (binary_normalize prec emax (2 * q + sticky) (- k - 1) false) in
  if negative then (- x)%float else x.

Definition number (s : jsstring) : option (float * jsstring) :=
  let (negative, s1) :=
    match s with
    | 45%N :: rest => (true, rest)
    | _ => (false, s)
    end in
  let '(int, intCount, s2) := digits s1 0%Z 0 in
  let leadingZero :=
    match s1 with 48%N :: _ => Nat.ltb 1 intCount | _ => false end in
  if Nat.eqb intCount 0 || leadingZero then None
  else
    let fraction :=
      match s2 with
      | 46%N :: rest =>
          let '(value, count, s3) := digits rest int 0 in
          if Nat.eqb count 0 then None else Some (value, count, s3)
      | _ => Some (int, 0, s2)
      end in
    match fraction with
    | None => None
    | Some (mantissa, scale, s3) =>
        match s3 with
        | c :: rest =>
            if ((c =? 101) || (c =? 69))%N then
              let (expNegative, s4) :=
                match rest with
                | 45%N :: r => (true, r)
                | 43%N :: r => (false, r)
                | _ => (false, rest)
                end in
              let '(e, eCount, s5) := digits s4 0%Z 0 in
              if Nat.eqb eCount 0 then None
              else
                Some (decimalToNumber negative mantissa
                        ((if expNegative then - e else e) - Z.of_nat scale), s5)
            else Some (decimalToNumber negative mantissa (- Z.of_nat scale), s3)
        | [] => Some (decimalToNumber negative mantissa (- Z.of_nat scale), s3)
        end
    end.

(** [CreateDataProperty]: a repeated key keeps its place and takes the
    later value. *)
Fixpoint setProperty (properties : list (jsstring * JSValue)) (key : jsstring)
    (v : JSValue) : list (jsstring * JSValue) :=
  match properties with
  | [] => [(key, v)]
  | (k, old) :: rest =>
      if JS.eqb k key then (k, v) :: rest else (k, old) :: setProperty rest key v
  end.

Fixpoint value (fuel : nat) (s : jsstring) : option (JSValue * jsstring) :=
  match fuel with
  | O => None
  | S fuel' =>
      match skipSpace s with
      | [] => None
      | c :: rest =>
          if (c =? 123)%N then
            match skipSpace rest with
            | 125%N :: rest1 => Some (JSObject [], rest1)
            | _ => members fuel' rest []
            end
          else if (c =? 91)%N then
            match skipSpace rest with
            | 93%N :: rest1 => Some (JSArray [], rest1)
            | _ => elements fuel' rest []
            end
          else if (c =? 34)%N then
            match stringBody rest [] with
            | Some (text, rest1) => Some (JSString text, rest1)
            | None => None
            end
          else if startsWith (c :: rest) (lit "true") then
            Some (JSBoolean true, skipn 4 (c :: rest))
          else if startsWith (c :: rest) (lit "false") then
            Some (JSBoolean false, skipn 5 (c :: rest))
          else if startsWith (c :: rest) (lit "null") then
            Some (JSNull, skipn 4 (c :: rest))
          else
            match number (c :: rest) with
            | Some (x, rest1) => Some (JSNumber x, rest1)
            | None => None
            end
      end
  end
with elements (fuel : nat) (s : jsstring) (seen : list JSValue)
  : option (JSValue * jsstring) :=
  match fuel with
  | O => None
  | S fuel' =>
      match value fuel' s with
      | None => None
      | Some (v, rest) =>
          match skipSpace rest with
          | 44%N :: rest1 => elements fuel' rest1 (v :: seen)
          | 93%N :: rest1 => Some (JSArray (rev (v :: seen)), rest1)
          | _ => None
          end
      end
  end
with members (fuel : nat) (s : jsstring) (seen : list (jsstring * JSValue))
  : option (JSValue * jsstring) :=
  match fuel with
  | O => None
  | S fuel' =>
      match skipSpace s with
      | 34%N :: rest =>
          match stringBody rest [] with
          | None => None
          | Some (key, rest1) =>
              match skipSpace rest1 with
              | 58%N :: rest2 =>
                  match value fuel' rest2 with
                  | None => None
                  | Some (v, rest3) =>
                      match skipSpace rest3 with
                      | 44%N :: rest4 => members fuel' rest4 (setProperty seen key v)
                      | 125%N :: rest4 => Some (JSObject (setProperty seen key v), rest4)
                      | _ => None
                      end
                  end
              | _ => None
              end
          end
      | _ => None
      end
  end.

Definition parse (text : jsstring) : Outcome JSValue :=
  match value (2 * List.length text + 4) text with
  | Some (v, rest) =>
      match skipSpace rest with
      | [] => Ok v
      | _ => Thrown (mkError SyntaxError (lit "Unexpected non-whitespace character after JSON"))
      end
  | None => Thrown (mkError SyntaxError (lit "Unexpected token in JSON"))
  end.

(** Decimal digits of a natural number. *)
Definition decimal (z : Z) : jsstring :=
  utf16 (NilEmpty.string_of_uint (N.to_uint (Z.to_N z))).

(** The same, padded with zeros on the left to [width] digits. *)
Definition padded (width : nat) (z : Z) : jsstring :=
  let text := decimal z in
  repeat 48%N (width - List.length text) ++ text.

(** Whether [10^a <= num / den], for positive [num] and [den]. *)
Definition atLeastPow10 (num den a : Z) : bool :=
  if (0 <=? a)%Z then (10 ^ a * den <=? num)%Z else (den <=? num * 10 ^ (- a))%Z.

(** The [n] with [10^(n-1) <= num / den < 10^n], looked for from [n]
    upwards. *)
Fixpoint magnitude (fuel : nat) (num den n : Z) : Z :=
  match fuel with
  | O => n
  | S fuel' =>
      if atLeastPow10 num den n then magnitude fuel' num den (n + 1) else n
  end.

(** Number::toString: the shortest digit string [s] of [k] digits with
    [s * 10^(n-k)] reading back as [x]; the closest one if there are
    several. *)
Fixpoint shortest (fuel : nat) (x : float) (num den n k : Z) : Z * Z :=
  let low :=
    if (0 <=? k - n)%Z then (num * 10 ^ (k - n) / den)%Z
    else (num / (den * 10 ^ (n - k)))%Z in
  let reads s := PrimFloat.eqb (decimalToNumber false s (n - k)) x in
  let twice s :=   (* sign of 2 * (s * 10^(n-k)) - (2 * low + 1) * 10^(n-k) *)
    if (0 <=? k - n)%Z then (2 * num * 10 ^ (k - n) <? (2 * low + 1) * den)%Z
    else (2 * num <? (2 * low + 1) * den * 10 ^ (n - k))%Z in
  match fuel with
  | O => (low, k)
  | S fuel' =>
      if reads low && reads (low + 1)%Z then
        (if twice low then low else (low + 1)%Z, k)
      else if reads low then (low, k)
      else if reads (low + 1)%Z then ((low + 1)%Z, k)
      else shortest fuel' x num den n (k + 1)%Z
  end.

Definition numberToString (x : float) : jsstring :=
  match Prim2SF x with
  | S754_nan => lit "NaN"
  | S754_zero _ => lit "0"
  | S754_infinity negative => if negative then lit "-Infinity" else lit "Infinity"
  | S754_finite negative m e =>
      let num := if (0 <=? e)%Z then (Z.pos m * 2 ^ e)%Z else Z.pos m in
      let den := if (0 <=? e)%Z then 1%Z else (2 ^ (- e))%Z in
      let estimate := ((Z.log2 num - Z.log2 den) * 30103 / 100000 - 1)%Z in
      let n := magnitude 4 num den estimate in
      let (s, k) := shortest 17 (abs x) num den n 1 in
      (* [s] may have reached [10^k] *)
      let (s, n) := if (10 ^ k <=? s)%Z then ((s / 10)%Z, (n + 1)%Z) else (s, n) in
      let ds := decimal s in
      let body :=
        if ((k <=? n) && (n <=? 21))%Z then ds ++ repeat 48%N (Z.to_nat (n - k))
        else if ((0 <? n) && (n <=? 21))%Z then
          firstn (Z.to_nat n) ds ++ lit "." ++ skipn (Z.to_nat n) ds
        else if ((-6 <? n) && (n <=? 0))%Z then
          lit "0." ++ repeat 48%N (Z.to_nat (- n)) ++ ds
        else
          let exponent :=
            (if (0 <=? n - 1)%Z then lit "+" else lit "-") ++ decimal (Z.abs (n - 1)) in
          if (k =? 1)%Z then ds ++ lit "e" ++ exponent
          else firstn 1 ds ++ lit "." ++ skipn 1 ds ++ lit "e" ++ exponent in
      if negative then lit "-" ++ body else body
  end.

(** ToString, as a template literal applies it. *)
Fixpoint toString (v : JSValue) : jsstring :=
  match v with
  | JSUndefined => lit "undefined"
  | JSNull => lit "null"
  | JSBoolean b => if b then lit "true" else lit "false"
  | JSNumber x => numberToString x
  | JSString s => s
  | JSArray items =>
      join (lit ",")
        ((fix each (items : list JSValue) : list jsstring :=
            match items with
            | [] => []
            | item :: rest =>
                match item with
                | JSUndefined | JSNull => []
                | _ => toString item
                end :: each rest
            end) items)
  | JSObject _ => lit "[object Object]"
  end.

(** [Date.prototype.toISOString] of a time value in milliseconds. *)
Definition toISOString (t : Date) : jsstring :=
  let day := (t / 86400000)%Z in
  let ms := (t mod 86400000)%Z in
  let z := (day + 719468)%Z in
  let era := (z / 146097)%Z in
  let doe := (z - era * 146097)%Z in
  let yoe := ((doe - doe / 1460 + doe / 36524 - doe / 146096) / 365)%Z in
  let doy := (doe - (365 * yoe + yoe / 4 - yoe / 100))%Z in
  let mp := ((5 * doy + 2) / 153)%Z in
  let d := (doy - (153 * mp + 2) / 5 + 1)%Z in
  let m := if (mp <? 10)%Z then (mp + 3)%Z else (mp - 9)%Z in
  let y := (yoe + era * 400 + (if (m <=? 2)%Z then 1 else 0))%Z in
  let year :=
    if ((0 <=? y) && (y <=? 9999))%Z then padded 4 y
    else (if (y <? 0)%Z then lit "-" else lit "+") ++ padded 6 (Z.abs y) in
  year ++ lit "-" ++ padded 2 m ++ lit "-" ++ padded 2 d ++ lit "T"
    ++ padded 2 (ms / 3600000) ++ lit ":" ++ padded 2 (ms / 60000 mod 60)
    ++ lit ":" ++ padded 2 (ms / 1000 mod 60) ++ lit "." ++ padded 3 (ms mod 1000)
    ++ lit "Z".

Definition runtime : Runtime :=
  {| JSON_parse := parse; ToString := toString; Date_toISOString := toISOString |}.

End Host.

(** A JSON text written with single quotes where it has double ones. *)
Definition jsonText (s : string) : jsstring :=
  map (fun c => if (c =? 39)%N then 34%N else c) (utf16 s).



(* ================================================================== *)
(** * A stand-in for the imports, and the scenarios *)
(* ================================================================== *)

(** Stand-ins for the imported modules, enough to run the use case on
    examples.  The statements proved below are about every instance of
    [Imports]; these serve to evaluate them. *)

Module Sample.

Record Action := mkAction {
  action_id : jsstring;
  action_name : JSValue;
  action_description : JSValue;
  action_difficulty : JSValue
}.

Definition Action_fromAIOutput (input : JSValue) (actionId : jsstring)
  : Outcome Action :=
  name <- get input (lit "name") ;;
  description <- get input (lit "description") ;;
  difficulty <- get input (lit "difficulty") ;;
  Ok (mkAction actionId name description difficulty).

Definition Action_toDTO (action : Action) : JSValue :=
  JSObject [ (lit "name", action_name action);
             (lit "description", action_description action);
             (lit "difficulty", action_difficulty action) ].

Inductive Rank := BRONZE | SILVER | GOLDEN | DIAMOND.

(** The thresholds quoted at [HabitSeries.calculateRank]. *)
Definition calculateRankFromScore (score : float) : Rank :=
  if (1000 <=? score)%float then DIAMOND
  else if (600 <=? score)%float then GOLDEN
  else if (300 <=? score)%float then SILVER
  else BRONZE.

(** The public subset of the model selection policy. *)
Definition getModelConfig (functionType : jsstring) : option PassConfig :=
  if JS.eqb functionType (lit "habit_series_creative") then
    Some (getHabitSeriesAIConfig habit_series_creative)
  else if JS.eqb functionType (lit "habit_series_structure") then
    Some (getHabitSeriesAIConfig habit_series_structure)
  else if JS.eqb functionType (lit "json_conversion") then
    Some (getHabitSeriesAIConfig json_conversion)
  else None.

(** The text of a reply, empty when it is not a string. *)
Definition textOf (v : JSValue) : jsstring :=
  match v with JSString s => s | _ => [] end.

Definition StructureHabitSeriesPrompt (language : jsstring) (rawText : JSValue)
  : list Message :=
  [ mkMessage (lit "system") (lit "Consolidate the series below into a stable structure.");
    mkMessage (lit "user") (textOf rawText) ].

Definition JsonSchemaHabitSeriesPrompt (content schema : JSValue) : list Message :=
  [ mkMessage (lit "system") (lit "Convert the series below to JSON matching the schema.");
    mkMessage (lit "user") (textOf content) ].

Definition imports : Imports :=
  @Build_Imports Action JSValue Action_fromAIOutput Action_toDTO
    Rank BRONZE calculateRankFromScore
    (lit "easy") (lit "moderate") (lit "challenging")
    (option PassConfig) getModelConfig
    StructureHabitSeriesPrompt JsonSchemaHabitSeriesPrompt
    unit unit unit unit.

Section Scenario.

#[local] Existing Instance Host.runtime.
#[local] Existing Instance imports.

(** All four collaborators wired. *)
Definition deps : Deps := mkDeps (Some tt) (Some tt) (Some tt) (Some tt).

(** The request [{ language: "en", testData: { habit: "reading" } }]. *)
Definition request : Payload :=
  mkPayload (Some (lit "en")) None (Some [(lit "habit", lit "reading")]).

(** The provider's reply, [{ content }]. *)
Definition reply (content : JSValue) : Outcome JSValue :=
  Ok (JSObject [(lit "content", content)]).

(** Collaborators in which the AI service answers its successive calls
    with [replies], the clock reads [clock], and the repositories
    succeed, the habit-series repository handing back the entity it is
    given. *)
Definition world (replies : list (Outcome JSValue)) (clock : Date) : World :=
  fun X history call =>
    match call in Call X return Outcome X with
    | generateAIResponse _ _ _ _ _ =>
        nth (List.length (filter isAICall history)) replies
          (Thrown (mkError Error (lit "Gemini provider error: no reply")))
    | newDate => Ok clock
    | createFromAI _ _ entity => Ok entity
    | incrementActiveSeries _ _ => Ok tt
    end.

Definition creativeText : JSValue :=
  JSString (lit "Read Daily. A series about reading every day.").

Definition structuredText : JSValue :=
  JSString (lit "Title: Read Daily. Actions: read 5 pages; read 10 pages; read a chapter.").

(** The normalization output of the end-to-end scenario. *)
Definition readDaily : jsstring :=
  jsonText "{'title':'Read Daily','description':'...','actions':[{'name':'Read 5 pages','description':'...','difficulty':'easy'},{'name':'...','description':'...','difficulty':'moderate'},{'name':'...','description':'...','difficulty':'challenging'}]}".

(** What [JSON.parse] makes of it. *)
Definition readDailyAction (name difficulty : string) : JSValue :=
  JSObject [textProp "name" name; textProp "description" "...";
            textProp "difficulty" difficulty].

Definition readDailyParsed : JSValue :=
  JSObject
    [ textProp "title" "Read Daily"; textProp "description" "...";
      (lit "actions",
        JSArray [ readDailyAction "Read 5 pages" "easy";
                  readDailyAction "..." "moderate";
                  readDailyAction "..." "challenging" ]) ].

Definition endToEnd : World :=
  world [reply creativeText; reply structuredText; reply (JSString readDaily)]
        1762018380123%Z.

(** The habit-series repository is not wired. *)
Definition depsWithoutRepository : Deps :=
  mkDeps (Some tt) None (Some tt) (Some tt).

(** The request without its [language]. *)
Definition requestWithoutLanguage : Payload :=
  mkPayload None None (Some [(lit "habit", lit "reading")]).

Definition malformed : World :=
  world [reply creativeText; reply structuredText; reply (JSString (lit "not json"))]
        1762018380123%Z.

End Scenario.

End Sample.


(* ================================================================== *)
(** * The provider adapters behind the router *)
(* ================================================================== *)

(** The options of a call, [{ model, temperature, maxTokens,
    forceJson }]; a property that is absent reads [undefined]. *)
Record CallOptions := mkCallOptions {
  options_model : JSValue;
  options_temperature : JSValue;
  options_maxTokens : JSValue;
  options_forceJson : JSValue
}.

(** [options = {}]. *)
Definition noOptions : CallOptions :=
  mkCallOptions JSUndefined JSUndefined JSUndefined JSUndefined.

(** A destructuring default, [{ x = d } = options]: it replaces
    [undefined], and [undefined] only. *)
Definition orDefault (x d : JSValue) : JSValue :=
  match x with
  | JSUndefined => d
  | given => given
  end.

(** The provider-agnostic response, [{ content, model, tokensUsed,
    energyConsumed }]. *)
Record AIResponse := mkAIResponse {
  response_content : JSValue;
  response_model : JSValue;
  tokensUsed : float;
  energyConsumed : float
}.

(** What the Gemini adapter imports: the model table (GeminiConfig),
    the sanitizer of user input (SanitizeUserInput), and the vendor
    behind [geminiModel.generateContent]: for a model handle, a prompt
    and the generation configuration (temperature, maxOutputTokens),
    the text [result.response.text()] of its answer, or the error met
    on the way. *)
Class Vendor := {
  GeminiModel : Type;
  getModel : JSValue -> Outcome GeminiModel;
  sanitizeUserInput : jsstring -> Outcome jsstring;
  generateContent : GeminiModel -> jsstring -> JSValue -> JSValue -> Outcome JSValue
}.

(** The OpenAI adapter, which the router imports. *)
Class OpenAI := {
  OpenAIAdapter_callAI :
    jsstring -> list Message -> option CallOptions -> Outcome AIResponse
}.

Section Adapters.
Context {vendor : Vendor} {openai : OpenAI}.

(** [messages.map(m => ...)] for a callback that may throw. *)
Fixpoint mapMessages (callback : Message -> Outcome Message)
    (messages : list Message) : Outcome (list Message) :=
  match messages with
  | [] => Ok []
  | m :: rest =>
      m' <- callback m ;;
      rest' <- mapMessages callback rest ;;
      Ok (m' :: rest')
  end.

(** Only user-originated messages are sanitized. *)
Definition sanitizeMessage (m : Message) : Outcome Message :=
  if JS.eqb (role m) (lit "user") then
    sanitized <- sanitizeUserInput (content m) ;;
    Ok (mkMessage (role m) sanitized)
  else Ok m.

(** The generic message format as Gemini prompt text. *)
Definition renderMessage (m : Message) : jsstring :=
  if JS.eqb (role m) (lit "system") then
    lit "[SYSTEM INSTRUCTIONS]" ++ nl ++ content m
  else if JS.eqb (role m) (lit "assistant") then
    lit "[ASSISTANT]" ++ nl ++ content m
  else content m.

Definition geminiPrompt (sanitizedMessages : list Message) : jsstring :=
  join (nl ++ nl) (map renderMessage sanitizedMessages).

(** The body of the [try] block of [GeminiAdapter.callAI]. *)
Definition GeminiAdapter_attempt (userId : jsstring) (messages : list Message)
    (options : option CallOptions) : Outcome AIResponse :=
  let options := nullish options noOptions in
  let model := orDefault (options_model options) (JSString (lit "gemini-2.5-flash")) in
  let temperature :=
    orDefault (options_temperature options) (JSNumber 0x1.6666666666666p-1) in
  let maxTokens := orDefault (options_maxTokens options) (JSNumber 1500) in
  let forceJson := orDefault (options_forceJson options) (JSBoolean false) in
  geminiModel <- getModel model ;;
  sanitizedMessages <- mapMessages sanitizeMessage messages ;;
  let prompt := geminiPrompt sanitizedMessages in
  content <- generateContent geminiModel prompt temperature maxTokens ;;
  let tokensUsed := calculateGeminiTokens content in
  let energyConsumed := calculateGeminiEnergy (JSString prompt) content in
  Ok (mkAIResponse content model tokensUsed energyConsumed).

(** [GeminiAdapter.callAI]: whatever is thrown inside is caught and
    thrown again as an [Error] that quotes its message. *)
Definition GeminiAdapter_callAI (userId : jsstring) (messages : list Message)
    (options : option CallOptions) : Outcome AIResponse :=
  match GeminiAdapter_attempt userId messages options with
  | Ok response => Ok response
  | Thrown error =>
      Thrown (mkError Error (lit "Gemini provider error: " ++ errMessage error))
  end.

Definition GeminiAdapter_callAIWithFunctionType (userId : jsstring)
    (messages : list Message) (functionType : jsstring) : Outcome AIResponse :=
  GeminiAdapter_callAI userId messages
    (Some (mkCallOptions (JSString (lit "gemini-2.5-flash"))
             (JSNumber 0x1.6666666666666p-1) (JSNumber 1500) (JSBoolean false))).

(** [AIProviderRouter.callAI]: the adapter resolved for [options.model]
    (by default "gemini-2.5-flash") gets the call, with the options
    object ([{}] when none was given). *)
Definition AIProviderRouter_callAI (userId : jsstring) (messages : list Message)
    (options : option CallOptions) : Outcome AIResponse :=
  let options := nullish options noOptions in
  let model := orDefault (options_model options) (JSString (lit "gemini-2.5-flash")) in
  adapter <- getAdapterForModel model ;;
  match adapter with
  | openaiAdapter => OpenAIAdapter_callAI userId messages (Some options)
  | geminiAdapter => GeminiAdapter_callAI userId messages (Some options)
  end.

Definition AIProviderRouter_callAIWithFunctionType (userId : jsstring)
    (messages : list Message) (functionType : jsstring) : Outcome AIResponse :=
  GeminiAdapter_callAIWithFunctionType userId messages functionType.

End Adapters.

(** A Gemini vendor and an OpenAI adapter to run the adapters on: the
    model table knows the "gemini-" names, the sanitizer trims, the
    vendor echoes the prompt and refuses an empty one; the OpenAI
    adapter answers with a fixed text. *)
Module SampleVendor.

Definition getModel (model : JSValue) : Outcome jsstring :=
  match model with
  | JSString m =>
      if startsWith m (lit "gemini-") then Ok m
      else Thrown (mkError Error (lit "Unknown Gemini model"))
  | _ => Thrown (mkError TypeError (lit "Model name must be a string"))
  end.

Definition sanitizeUserInput (input : jsstring) : Outcome jsstring :=
  Ok (trim input).

Definition generateContent (geminiModel prompt : jsstring)
    (temperature maxTokens : JSValue) : Outcome JSValue :=
  match prompt with
  | [] => Thrown (mkError Error (lit "Empty prompt"))
  | _ => Ok (JSString prompt)
  end.

Definition vendor : Vendor :=
  @Build_Vendor jsstring getModel sanitizeUserInput generateContent.

Definition openai : OpenAI :=
  @Build_OpenAI
    (fun userId messages options =>
       Ok (mkAIResponse (JSString (lit "{}")) (JSString (lit "gpt-4o-mini")) 1 0)).

End SampleVendor.

(** A candidate whose three actions carry the given difficulty. *)
Definition actionOf (name description difficulty : jsstring) : JSValue :=
  JSObject [ (lit "name", JSString name);
             (lit "description", JSString description);
             (lit "difficulty", JSString difficulty) ].

Definition candidateWithDifficulty (difficulty : jsstring) : JSValue :=
  JSObject
    [ (lit "title", JSString (lit "T"));
      (lit "description", JSString (lit "D"));
      (lit "actions",
        JSArray [ actionOf (lit "a0") (lit "d") difficulty;
                  actionOf (lit "a1") (lit "d") difficulty;
                  actionOf (lit "a2") (lit "d") difficulty ]) ].

(** The exact count the token estimate stands for: the length divided
    by 3.7, rounded to the closest integer, as a test on one length, and
    the test run over [fuel] successive lengths. *)
Definition tokensFormula (k : Z) : bool :=
  PrimFloat.Leibniz.eqb
    (Math_round (Number_ofZ k / 0x1.d99999999999ap+1)%float)
    (Number_ofZ ((20 * k + 37) / 74)).

Fixpoint checkFrom (fuel : nat) (k : Z) : bool :=
  match fuel with
  | O => true
  | S fuel' => tokensFormula k && checkFrom fuel' (k + 1)
  end.

(* ================================================================== *)
(** * Properties *)
(* ================================================================== *)

(** ** Strings and values *)

Lemma eqb_eq (a b : jsstring) : JS.eqb a b = true <-> a = b.
Proof.
  revert b; induction a as [|x a IH]; intros [|y b]; simpl;
    try (split; [discriminate | congruence]); try tauto.
  rewrite andb_true_iff, N.eqb_eq, IH.
  split; [intros [-> ->]; reflexivity | intros H; inversion H; auto].
Qed.

Lemma eqb_neq (a b : jsstring) : JS.eqb a b = false <-> a <> b.
Proof.
  rewrite <- eqb_eq. destruct (JS.eqb a b); split; congruence.
Qed.

Lemma notObject_isObject (v : JSValue) : notObject v = negb (isObject v).
Proof.
  unfold notObject.
  destruct v; try reflexivity; cbn [typeof isObject negb].
  all: try apply orb_true_r.
Qed.

Lemma notText_isText (v : JSValue) : notText v = Ok (negb (isText v)).
Proof.
  destruct v; reflexivity.
Qed.

Lemma get_field (v : JSValue) (key : jsstring) :
  isObject v = true -> get v key = Ok (field v key).
Proof. destruct v; try discriminate; reflexivity. Qed.

(** ** The validator against the ordered rules *)

(** The next text check that decides the goal: when it fails, the two
    sides report the same reason. *)
Ltac next_text_check :=
  match goal with
  | |- context [isText ?v] => destruct (isText v); [|reflexivity]; cbn [negb]
  end.

Lemma validateActions_rules (actions : list JSValue) (i : nat) :
  validateActions actions i = Ok (verdictOf (firstViolation (actionsRules actions i))).
Proof.
  revert i; induction actions as [|action rest IH]; intro i.
  - reflexivity.
  - cbn [validateActions actionsRules]. unfold firstViolation, actionRules.
    rewrite notObject_isObject.
    destruct (isObject action) eqn:Hobj; [|reflexivity].
    cbn [negb bind app find passes].
    rewrite !(get_field _ _ Hobj); cbn [bind].
    rewrite !notText_isText; cbn [bind].
    do 3 next_text_check.
    apply IH.
Qed.

Lemma validateAIOutput_rules (data : JSValue) :
  validateAIOutput data = Ok (verdictOf (firstViolation (rules data))).
Proof.
  unfold validateAIOutput, rules, firstViolation.
  rewrite notObject_isObject.
  destruct (isObject data) eqn:Hobj; [|reflexivity].
  cbn [negb bind app find passes].
  rewrite !(get_field _ _ Hobj); cbn [bind].
  rewrite !notText_isText; cbn [bind].
  do 2 next_text_check.
  match goal with
  | |- context [isArray ?v] => destruct v as [ | | | | |elements| ]
  end.
  1-5, 7: reflexivity.
  cbn [isArray lengthInBounds elementsOf negb].
  rewrite !Nat.ltb_antisym, <- negb_andb.
  destruct ((3 <=? List.length elements) && (List.length elements <=? 5));
    [|reflexivity].
  apply validateActions_rules.
Qed.

Lemma firstViolation_none (rs : list Rule) :
  firstViolation rs = None <-> forallb passes rs = true.
Proof.
  unfold firstViolation; induction rs as [|r rs IH]; cbn [find forallb].
  - tauto.
  - destruct (passes r); cbn [negb andb]; [exact IH | split; discriminate].
Qed.

Lemma firstViolation_some (rs : list Rule) (r : Rule) :
  firstViolation rs = Some r ->
  exists before after,
    rs = before ++ r :: after
    /\ Forall (fun r' => passes r' = true) before
    /\ passes r = false.
Proof.
  unfold firstViolation; induction rs as [|r0 rs IH]; cbn [find]; [discriminate|].
  destruct (passes r0) eqn:Hr0; cbn [negb].
  - intros H; destruct (IH H) as (before & after & -> & Hall & Hr).
    exists (r0 :: before), after; repeat split; auto.
  - intros [= <-]. exists [], rs; repeat split; auto.
Qed.

Lemma verdictOf_accepted (violation : option Rule) :
  verdictOf violation = accepted <-> violation = None.
Proof.
  unfold verdictOf, accepted, rejected.
  destruct violation; split; congruence.
Qed.

(** ** The validator against the well-formed candidates *)

Lemma isText_hasText (v : JSValue) (key : jsstring) :
  isText (field v key) = true <-> hasText v key.
Proof.
  unfold hasText; generalize (field v key) as x; intro x; split.
  - destruct x as [ | | | |s| | ]; try discriminate.
    cbn [isText]; intro H; exists s; split; [reflexivity|].
    destruct (trim s); [discriminate | congruence].
  - intros (s & -> & Hs); cbn [isText]. destruct (trim s); congruence.
Qed.

Lemma hasText_isObject (v : JSValue) (key : jsstring) :
  hasText v key -> isObject v = true.
Proof.
  intros (s & Hs & _). destruct v; try reflexivity; discriminate Hs.
Qed.

Lemma wellFormedActionB_spec (action : JSValue) :
  wellFormedActionB action = true <-> wellFormedAction action.
Proof.
  unfold wellFormedActionB, wellFormedAction.
  rewrite !andb_true_iff, !isText_hasText.
  split; [tauto|]. intros (Hn & Hd & Hf).
  pose proof (hasText_isObject Hn). tauto.
Qed.

Lemma actionsRules_pass (actions : list JSValue) (i : nat) :
  forallb passes (actionsRules actions i) = forallb wellFormedActionB actions.
Proof.
  revert i; induction actions as [|action rest IH]; intro i; [reflexivity|].
  cbn [actionsRules forallb]. rewrite forallb_app, IH.
  unfold actionRules, wellFormedActionB; cbn [forallb passes].
  rewrite andb_true_r, !andb_assoc. reflexivity.
Qed.

Lemma rules_pass (candidate : JSValue) :
  forallb passes (rules candidate) = true <-> wellFormedCandidate candidate.
Proof.
  unfold rules, wellFormedCandidate.
  rewrite forallb_app, actionsRules_pass; cbn [forallb passes].
  rewrite !andb_true_iff, !isText_hasText, forallb_forall.
  split.
  - intros ((_ & Ht & Hd & Harr & Hlen & _) & Hall).
    repeat split; auto.
    destruct (field candidate (lit "actions")) as [ | | | | |actions| ];
      try discriminate.
    exists actions; cbn [lengthInBounds elementsOf] in *.
    apply andb_true_iff in Hlen as [H3 H5].
    apply Nat.leb_le in H3, H5.
    repeat split; auto.
    apply Forall_forall; intros a Ha. apply wellFormedActionB_spec; auto.
  - intros (Ht & Hd & actions & -> & [H3 H5] & Hall);
      cbn [isArray lengthInBounds elementsOf].
    pose proof (hasText_isObject Ht) as Hobj.
    apply Nat.leb_le in H3, H5. rewrite H3, H5, Hobj.
    repeat split; auto.
    intros a Ha. apply wellFormedActionB_spec.
    rewrite Forall_forall in Hall; auto.
Qed.

Lemma validateAIOutput_accepted (candidate : JSValue) :
  validateAIOutput candidate = Ok accepted <-> wellFormedCandidate candidate.
Proof.
  rewrite validateAIOutput_rules, <- rules_pass, <- firstViolation_none,
    <- verdictOf_accepted.
  split; congruence.
Qed.

(** ** Claims about the policy and the validator *)

(** C7.  [isHabitSeriesFinal] answers [true] for the pass identifier
    ["habit_series_structure"], [false] for ["habit_series_creative"]
    (and for ["json_conversion"]), and [true] for no other identifier:
    only the structural pass is persist-eligible. *)
Theorem isHabitSeriesFinal_only_structure :
  isHabitSeriesFinal (lit "habit_series_structure") = true
  /\ isHabitSeriesFinal (lit "habit_series_creative") = false
  /\ isHabitSeriesFinal (lit "json_conversion") = false
  /\ forall functionType,
       isHabitSeriesFinal functionType = true
       <-> functionType = lit "habit_series_structure".
Proof.
  do 3 (split; [vm_compute; reflexivity|]).
  intro functionType; unfold isHabitSeriesFinal; apply eqb_eq.
Qed.

(** C5.  The validator accepts the candidate with title "T", description
    "D" and three well-formed actions; it rejects the same candidate
    with two or six actions, with an empty or a whitespace-only title,
    and with an action that has no difficulty string; and in general it
    accepts exactly the well-formed candidates: non-empty trimmed title
    and description, an actions array of 3 to 5 entries, each with
    non-empty trimmed name, description and difficulty. *)
Theorem validateAIOutput_accepts_exactly_well_formed :
  validateAIOutput (candidate "T" threeActions) = Ok accepted
  /\ validateAIOutput (candidate "T" (firstn 2 threeActions))
     = Ok (rejected (lit "actions length out of bounds"))
  /\ validateAIOutput (candidate "T" (threeActions ++ threeActions))
     = Ok (rejected (lit "actions length out of bounds"))
  /\ validateAIOutput (candidate "" threeActions)
     = Ok (rejected (lit "Invalid or missing title"))
  /\ validateAIOutput (candidate "  " threeActions)
     = Ok (rejected (lit "Invalid or missing title"))
  /\ validateAIOutput
       (candidate "T" [sampleAction "a0"; actionWithoutDifficulty; sampleAction "a2"])
     = Ok (rejected (lit "actions[1].difficulty invalid"))
  /\ validateAIOutput
       (candidate "T" [sampleAction "a0"; sampleAction "a1"; actionWithNumericDifficulty])
     = Ok (rejected (lit "actions[2].difficulty invalid"))
  /\ forall data,
       validateAIOutput data = Ok accepted <-> wellFormedCandidate data.
Proof.
  do 7 (split; [vm_compute; reflexivity|]).
  exact validateAIOutput_accepted.
Qed.

(** C6.  The validator checks the rules in the fixed order (non-null
    object, title, description, actions is an array, its length is in
    [3,5], then for each action in sequence order: object, name,
    description, difficulty) and stops at the first one that fails:
    either every rule passes and the candidate is accepted, or the
    verdict carries the reason of the first failing rule, and that
    reason alone, whatever the rules after it say. *)
Theorem validateAIOutput_reports_first_violation (data : JSValue) :
  (Forall (fun r => passes r = true) (rules data)
   /\ validateAIOutput data = Ok accepted)
  \/ exists before r after,
       rules data = before ++ r :: after
       /\ Forall (fun r' => passes r' = true) before
       /\ passes r = false
       /\ validateAIOutput data = Ok (mkVerdict false (Some (reason r))).
Proof.
  rewrite validateAIOutput_rules.
  destruct (firstViolation (rules data)) as [r|] eqn:Hfirst.
  - right. destruct (firstViolation_some _ Hfirst) as (before & after & Hsplit & Hall & Hr).
    exists before, r, after; auto.
  - left. split; [|reflexivity].
    apply Forall_forall. apply forallb_forall, firstViolation_none, Hfirst.
Qed.

(** On the JSON-like values the validator on host values is the
    validator. *)
Lemma validateAIOutputOnHost_plain (data : JSValue) :
  validateAIOutputOnHost (Plain data) = validateAIOutput data.
Proof. reflexivity. Qed.

(** C10, as the claim words it, fails: not every input value
    whatsoever gets a verdict.  On an object whose [title] is a getter
    that throws, the read of [data.title] throws and the validator with
    it. *)
Lemma validateAIOutput_throws_on_throwing_getter :
  ~ (forall data : HostValue,
       exists verdict, validateAIOutputOnHost data = Ok verdict).
Proof.
  intro H. destruct (H throwingTitle) as [verdict Hverdict].
  discriminate Hverdict.
Qed.

(** C10, as the code has it.  [validateAIOutput] is total on the
    JSON-like values: on every such value (undefined, null, a
    primitive, an array, an object with missing or ill-typed fields) it
    returns a verdict, [{ valid: true }] or [{ valid: false, error }],
    and never throws. *)
Theorem validateAIOutput_total (data : JSValue) :
  validateAIOutput data = Ok (mkVerdict true None)
  \/ exists reason, validateAIOutput data = Ok (mkVerdict false (Some reason)).
Proof.
  rewrite validateAIOutput_rules.
  destruct (firstViolation (rules data)) as [r|]; [right | left].
  - exists (reason r); reflexivity.
  - reflexivity.
Qed.

(** ** The router *)

Lemma getAdapterForModel_not_string (model : JSValue) :
  (forall m, model <> JSString m) ->
  getAdapterForModel model = Thrown invalidModel.
Proof.
  intro Hm. destruct model as [ | |b|x|m|items|properties]; try reflexivity.
  3: now destruct (Hm m).
  all: unfold getAdapterForModel; cbn [typeof];
    match goal with
    | |- context [JS.eqb ?a ?b] =>
        replace (JS.eqb a b) with false by (vm_compute; reflexivity)
    end;
    cbn [negb]; rewrite orb_true_r; reflexivity.
Qed.

Lemma getAdapterForModel_string (m : jsstring) :
  getAdapterForModel (JSString m) =
  match m with
  | [] => Thrown invalidModel
  | _ =>
      if startsWith m (lit "gpt-") || startsWith m (lit "o1-") then Ok openaiAdapter
      else if startsWith m (lit "gemini-") then Ok geminiAdapter
      else Thrown (unknownModelProvider m)
  end.
Proof.
  unfold getAdapterForModel; cbn [typeof truthy].
  replace (JS.eqb (lit "string") (lit "string")) with true by (vm_compute; reflexivity).
  destruct m; reflexivity.
Qed.

(** C3, as the claim words it, fails on the empty string: the error
    thrown for it is not the unknown-provider error, for any model
    name. *)
Lemma getAdapterForModel_empty_is_not_unknown_provider :
  ~ (exists model,
       getAdapterForModel (JSString (lit "")) = Thrown (unknownModelProvider model)).
Proof.
  intros [model H]. rewrite getAdapterForModel_string in H.
  unfold invalidModel, unknownModelProvider in H. cbn [app] in H.
  discriminate H.
Qed.

(** C3, as the code has it.  Adapter resolution maps "gpt-4o-mini" and
    "o1-preview" to the OpenAI adapter and "gemini-2.5-flash" and
    "gemini-2.5-pro" to the Gemini adapter; for "mistral-large", where
    no family prefix matches, it throws the unknown-provider error
    (UNKNOWN_MODEL_PROVIDER); for the empty string and for every value
    that is not a string it throws another error, INVALID_MODEL; it
    neither falls back nor substitutes a default: an adapter is returned
    only for a string with a matching prefix, and every other
    identifier ends in one of the two thrown errors. *)
Theorem getAdapterForModel_resolution :
  getAdapterForModel (JSString (lit "gpt-4o-mini")) = Ok openaiAdapter
  /\ getAdapterForModel (JSString (lit "o1-preview")) = Ok openaiAdapter
  /\ getAdapterForModel (JSString (lit "gemini-2.5-flash")) = Ok geminiAdapter
  /\ getAdapterForModel (JSString (lit "gemini-2.5-pro")) = Ok geminiAdapter
  /\ getAdapterForModel (JSString (lit "mistral-large"))
     = Thrown (unknownModelProvider (lit "mistral-large"))
  /\ getAdapterForModel (JSString (lit "")) = Thrown invalidModel
  /\ (forall model,
        (forall m, model <> JSString m) ->
        getAdapterForModel model = Thrown invalidModel)
  /\ (forall model adapter,
        getAdapterForModel model = Ok adapter ->
        exists m,
          model = JSString m
          /\ (adapter = openaiAdapter
              /\ (startsWith m (lit "gpt-") = true \/ startsWith m (lit "o1-") = true)
              \/ adapter = geminiAdapter /\ startsWith m (lit "gemini-") = true))
  /\ (forall model,
        (exists adapter, getAdapterForModel model = Ok adapter)
        \/ getAdapterForModel model = Thrown invalidModel
        \/ exists m, getAdapterForModel model = Thrown (unknownModelProvider m)).
Proof.
  do 6 (split; [vm_compute; reflexivity|]).
  split; [exact getAdapterForModel_not_string|].
  split.
  - intros model adapter.
    destruct model as [ | |b|x|m|items|properties];
      try (rewrite getAdapterForModel_not_string by discriminate; discriminate).
    rewrite getAdapterForModel_string. intro H. exists m; split; [reflexivity|].
    destruct m; [discriminate|].
    destruct (startsWith _ (lit "gpt-") || startsWith _ (lit "o1-")) eqn:Hopenai.
    + left. apply orb_true_iff in Hopenai. split; [congruence | exact Hopenai].
    + destruct (startsWith _ (lit "gemini-")) eqn:Hgemini; [|discriminate].
      right. split; [congruence | reflexivity].
  - intro model.
    destruct model as [ | |b|x|m|items|properties];
      try (right; left; apply getAdapterForModel_not_string; discriminate).
    rewrite getAdapterForModel_string.
    destruct m as [|c m]; [right; left; reflexivity|].
    destruct (startsWith _ (lit "gpt-") || startsWith _ (lit "o1-"));
      [left; eexists; reflexivity|].
    destruct (startsWith _ (lit "gemini-"));
      [left; eexists; reflexivity | right; right; eexists; reflexivity].
Qed.

(** The default model of [callAI] is applied before the resolution, not
    by it: a call without a model goes to the Gemini adapter, a call
    with an unroutable model still fails. *)
Lemma callAI_adapter_default :
  callAI_adapter JSUndefined = Ok geminiAdapter
  /\ callAI_adapter (JSString (lit "mistral-large"))
     = Thrown (unknownModelProvider (lit "mistral-large"))
  /\ callAI_adapter JSNull = Thrown invalidModel.
Proof. repeat split; vm_compute; reflexivity. Qed.

(** ** Gemini energy accounting *)

Lemma calculateGeminiTokens_length (text : jsstring) :
  calculateGeminiTokens (JSString text) = tokensOfLength (List.length text).
Proof.
  unfold calculateGeminiTokens; cbn [typeof truthy].
  replace (JS.eqb (lit "string") (lit "string")) with true by (vm_compute; reflexivity).
  destruct text; reflexivity.
Qed.

Lemma calculateGeminiEnergy_lengths (prompt response : jsstring) :
  calculateGeminiEnergy (JSString prompt) (JSString response)
  = energyOfLengths (List.length prompt) (List.length response).
Proof.
  unfold calculateGeminiEnergy, energyOfLengths.
  rewrite !calculateGeminiTokens_length. reflexivity.
Qed.

(** C8.  The Gemini energy value is a function of the length of the
    prompt text and the length of the response text, and of nothing
    else: two prompt/response pairs with the same lengths get the same
    energy (the same pair, then, always the same value). *)
Theorem calculateGeminiEnergy_depends_on_lengths_only
    (prompt1 response1 prompt2 response2 : jsstring) :
  List.length prompt1 = List.length prompt2 ->
  List.length response1 = List.length response2 ->
  calculateGeminiEnergy (JSString prompt1) (JSString response1)
  = calculateGeminiEnergy (JSString prompt2) (JSString response2).
Proof.
  intros Hprompt Hresponse.
  rewrite !calculateGeminiEnergy_lengths, Hprompt, Hresponse.
  reflexivity.
Qed.

Lemma calculateGeminiEnergy_depends_on_lengths_only_witness :
  List.length (lit "Read more") = List.length (lit "Sleep 8 h")
  /\ List.length (lit "Daily") = List.length (lit "Early")
  /\ calculateGeminiEnergy (JSString (lit "Read more")) (JSString (lit "Daily"))
     = calculateGeminiEnergy (JSString (lit "Sleep 8 h")) (JSString (lit "Early")).
Proof.
  split; [reflexivity|]. split; [reflexivity|].
  apply (@calculateGeminiEnergy_depends_on_lengths_only
           (lit "Read more") (lit "Daily") (lit "Sleep 8 h") (lit "Early"));
    reflexivity.
Defined.

(** The figures of the execution log: texts of 2927 and 352 code units
    count 791 and 95 tokens and cost 4 units; 791 and 307 tokens cost 6;
    260 and 98 tokens cost 2. *)
Lemma calculateGeminiEnergy_logged :
  tokensOfLength 2927 = 791%float /\ tokensOfLength 352 = 95%float
  /\ energyOfLengths 2927 352 = 4%float
  /\ tokensOfLength 1136 = 307%float
  /\ energyOfLengths 2927 1136 = 6%float
  /\ tokensOfLength 962 = 260%float /\ tokensOfLength 363 = 98%float
  /\ energyOfLengths 962 363 = 2%float.
Proof. repeat split; vm_compute; reflexivity. Qed.

(** ** The entity factory *)

Section EntityProperties.
Context {runtime : Runtime} {imports : Imports}.

Lemma mapWithIndex_length {A : Type} (callback : JSValue -> nat -> Outcome A)
    (elements : list JSValue) (index : nat) (results : list A) :
  mapWithIndex callback elements index = Ok results ->
  List.length results = List.length elements.
Proof.
  revert index results; induction elements as [|element rest IH];
    intros index results; cbn [mapWithIndex].
  - intros [= <-]; reflexivity.
  - destruct (callback element index) as [x|e]; cbn [bind]; [|discriminate].
    destruct (mapWithIndex callback rest (S index)) as [xs|e] eqn:Hrest;
      cbn [bind]; [|discriminate].
    intros [= <-]; cbn [List.length]. f_equal. eapply IH; eassumption.
Qed.

Lemma mapWithIndex_total {A : Type} (callback : JSValue -> nat -> Outcome A)
    (elements : list JSValue) (index : nat) :
  (forall element i, In element elements -> exists x, callback element i = Ok x) ->
  exists results, mapWithIndex callback elements index = Ok results.
Proof.
  revert index; induction elements as [|element rest IH]; intros index Hall;
    cbn [mapWithIndex].
  - exists []; reflexivity.
  - destruct (Hall element index (or_introl eq_refl)) as [x ->]; cbn [bind].
    destruct (IH (S index)) as [xs ->]; [intros; apply Hall; right; assumption|].
    exists (x :: xs); reflexivity.
Qed.

(** The factory fails on a missing input before anything else. *)
Lemma fromAIOutput_undefined (now : Date) (id : JSValue) :
  fromAIOutput now id JSUndefined
  = Thrown (mkError TypeError
      (lit "Cannot read properties of undefined (reading 'actions')")).
Proof. vm_compute; reflexivity. Qed.

Lemma get_Ok (v : JSValue) (key : jsstring) (x : JSValue) :
  get v key = Ok x ->
  x = field v key /\ forall key', get v key' = Ok (field v key').
Proof.
  destruct v; cbn [get field]; try discriminate;
    intros [= <-]; split; reflexivity.
Qed.

Lemma callMap_Ok {A : Type} (v : JSValue) (callback : JSValue -> nat -> Outcome A)
    (results : list A) :
  callMap v callback = Ok results ->
  exists items, v = JSArray items /\ mapWithIndex callback items 0 = Ok results.
Proof.
  destruct v; cbn [callMap]; try discriminate.
  intro H; eexists; split; [reflexivity | exact H].
Qed.

(** What the factory builds, when it builds. *)
Lemma fromAIOutput_inversion (now : Date) (id input : JSValue) (series : HabitSeries) :
  fromAIOutput now id input = Ok series ->
  exists actions,
    series = mkHabitSeries id (field input (lit "title"))
               (field input (lit "description")) actions Rank_BRONZE 0 now now
    /\ List.length actions = List.length (elementsOf (field input (lit "actions"))).
Proof.
  unfold fromAIOutput.
  generalize (lit "actions") (lit "title") (lit "description") (lit "_action_").
  intros kActions kTitle kDescription infix H.
  destruct (get input kActions) as [inputActions|e] eqn:Hget; cbn [bind] in H;
    [|discriminate].
  apply get_Ok in Hget as [-> Hfield]. rewrite !Hfield in H.
  match type of H with
  | context [callMap ?v ?f] =>
      destruct (callMap v f) as [actions|e] eqn:Hmap; cbn [bind] in H;
        [|discriminate]
  end.
  apply callMap_Ok in Hmap as (items & Hitems & Hmap).
  injection H as <-. exists actions. split; [reflexivity|].
  rewrite Hitems; cbn [elementsOf]. eapply mapWithIndex_length; eassumption.
Qed.

(** And it does build from a validated input, as long as the Action
    value object accepts every action. *)
Lemma fromAIOutput_validated (now : Date) (id input : JSValue) :
  validateAIOutput input = Ok accepted ->
  (forall action actionId,
      In action (elementsOf (field input (lit "actions"))) ->
      exists x, Action_fromAIOutput action actionId = Ok x) ->
  exists series, fromAIOutput now id input = Ok series.
Proof.
  intros Hvalid Hactions.
  apply validateAIOutput_accepted in Hvalid as (Htitle & _ & items & Hitems & _).
  pose proof (hasText_isObject Htitle) as Hobj.
  unfold fromAIOutput. rewrite !(get_field _ _ Hobj); cbn [bind].
  rewrite Hitems in *; cbn [callMap elementsOf] in *.
  match goal with
  | |- context [mapWithIndex ?f items 0] =>
      destruct (@mapWithIndex_total _ f items 0) as [actions ->]
  end.
  - intros element i Hin. apply Hactions; assumption.
  - cbn [bind]. eexists; reflexivity.
Qed.

(** The DTO of an entity carries its title and as many actions. *)
Lemma toDTO_title_actions (series : HabitSeries) :
  dto_title (toDTO series) = title series
  /\ List.length (dto_actions (toDTO series)) = List.length (actions series).
Proof. split; [reflexivity | apply length_map]. Qed.

(** C9.  Whatever the input (so for every validated AI input), an
    entity produced by [HabitSeries.fromAIOutput] has rank BRONZE, total
    score 0, and [createdAt] and [lastActivityAt] both equal to the
    instant of creation: nothing in the AI output reaches the rank or
    the score of a new series. *)
Theorem fromAIOutput_safe_defaults (now : Date) (id input : JSValue)
    (series : HabitSeries) :
  fromAIOutput now id input = Ok series ->
  rank series = Rank_BRONZE
  /\ totalScore series = 0%float
  /\ createdAt series = now
  /\ lastActivityAt series = now
  /\ createdAt series = lastActivityAt series.
Proof.
  intro H. apply fromAIOutput_inversion in H as (actions & -> & _).
  repeat split.
Qed.

End EntityProperties.

(** ** The use case *)

Section UseCaseProperties.
Context {runtime : Runtime} {imports : Imports}.


(** C2.  When the three AI passes answer and the content of the third
    answer is a string that [JSON.parse] rejects, the use case rejects
    with the [ValidationError] "AI output is not valid JSON"; the calls
    made are the three AI calls and nothing else, so neither repository
    is invoked. *)
Theorem createHabitSeries_malformed_output (world : World) (history : list Event)
    (userId language : jsstring) (assistantContext : option jsstring)
    (testData : list (jsstring * jsstring))
    (users : UserRepository) (series : HabitSeriesRepository)
    (energy : EnergyRepository) (ai : AIProvider)
    (creativeResponse rawText structureResponse structured schemaResponse : JSValue)
    (text : jsstring) (syntaxError : JSError) :
  let creative := creativePass userId language assistantContext testData ai energy in
  let structure := structurePass userId language rawText ai energy in
  let schema := schemaPass userId structured ai energy in
  let trace :=
    history ++ [existT _ _ creative] ++ [existT _ _ structure] ++ [existT _ _ schema] in
  language <> [] ->
  world _ history creative = Ok creativeResponse ->
  get creativeResponse (lit "content") = Ok rawText ->
  world _ (history ++ [existT _ _ creative]) structure = Ok structureResponse ->
  get structureResponse (lit "content") = Ok structured ->
  world _ ((history ++ [existT _ _ creative]) ++ [existT _ _ structure]) schema
    = Ok schemaResponse ->
  get schemaResponse (lit "content") = Ok (JSString text) ->
  JSON_parse text = Thrown syntaxError ->
  run world history
    (createHabitSeries userId
       (Some (mkPayload (Some language) assistantContext (Some testData)))
       (Some (mkDeps (Some users) (Some series) (Some energy) (Some ai))))
  = (Thrown (mkError ValidationError (lit "AI output is not valid JSON")), trace)
  /\ existsb isRepositoryCall (skipn (List.length history) trace) = false.
Proof.
  intros creative structure schema trace Hlanguage H1 Hraw H2 Hstructured H3 Htext Hparse.
  split.
  - destruct language as [|c language]; [congruence|].
    unfold createHabitSeries; cbn [userRepository habitSeriesRepository
      energyRepository aiProvider run].
    fold creative. rewrite H1, Hraw; cbn [lift run].
    fold structure. rewrite H2, Hstructured; cbn [lift run].
    fold schema. rewrite H3.
    unfold parseContent. rewrite Htext; cbn [bind typeof].
    replace (JS.eqb (lit "string") (lit "string")) with true by (vm_compute; reflexivity).
    rewrite Hparse; cbn [run].
    unfold trace. rewrite !app_assoc. reflexivity.
  - unfold trace. rewrite skipn_app, Nat.sub_diag, skipn_all; reflexivity.
Qed.

(** One step of a run: the program reduces as far as it can, and the
    value it then waits for is split into its cases. *)
Ltac run_step :=
  try unfold lift; try rewrite fromAIOutput_undefined; cbn [run fst];
  match goal with
  | |- Thrown _ <> Ok _ => discriminate
  | |- fst (run _ _ (match ?x with _ => _ end)) <> _ => destruct x
  | |- fst (match ?x with _ => _ end) <> _ => destruct x
  end.

(** The use case never returns a DTO, whatever the request and the
    collaborators: every run that gets through validation ends in the
    factory call, which throws. *)
Lemma createHabitSeries_never_returns (world : World) (history : list Event)
    (userId : jsstring) (payload : option Payload) (deps : option Deps)
    (dto : HabitSeriesDTO) :
  fst (run world history (createHabitSeries userId payload deps)) <> Ok dto.
Proof.
  unfold createHabitSeries.
  destruct deps as [deps|]; [|discriminate].
  destruct (userRepository deps), (habitSeriesRepository deps),
    (energyRepository deps), (aiProvider deps); try discriminate.
  destruct payload as [[[[|c language]|] context [entries|]]|]; try discriminate.
  repeat run_step.
Qed.

End UseCaseProperties.

(** ** The use case on the scenarios *)

Section ScenarioProperties.

#[local] Existing Instance Host.runtime.
#[local] Existing Instance Sample.imports.



Lemma createHabitSeries_malformed_output_witness :
  Host.parse (lit "not json")
  = Thrown (mkError SyntaxError (lit "Unexpected token in JSON"))
  /\ run Sample.malformed []
       (createHabitSeries (lit "u1")
          (Some (mkPayload (Some (lit "en")) None (Some [(lit "habit", lit "reading")])))
          (Some (mkDeps (Some tt) (Some tt) (Some tt) (Some tt))))
     = (Thrown (mkError ValidationError (lit "AI output is not valid JSON")),
        [] ++ [existT _ _ (creativePass (lit "u1") (lit "en") None
                             [(lit "habit", lit "reading")] tt tt)]
           ++ [existT _ _ (structurePass (lit "u1") (lit "en") Sample.creativeText tt tt)]
           ++ [existT _ _ (schemaPass (lit "u1") Sample.structuredText tt tt)]).
Proof.
  split; [vm_compute; reflexivity|].
  refine (proj1 (@createHabitSeries_malformed_output Host.runtime Sample.imports
            Sample.malformed [] (lit "u1") (lit "en") None
            [(lit "habit", lit "reading")] tt tt tt tt
            (JSObject [(lit "content", Sample.creativeText)]) Sample.creativeText
            (JSObject [(lit "content", Sample.structuredText)]) Sample.structuredText
            (JSObject [(lit "content", JSString (lit "not json"))]) (lit "not json")
            (mkError SyntaxError (lit "Unexpected token in JSON"))
            _ _ _ _ _ _ _ _));
    try (vm_compute; reflexivity).
  discriminate.
Defined.

Lemma fromAIOutput_safe_defaults_witness :
  exists series,
    fromAIOutput 1762018380123%Z (JSString (lit "series-1")) Sample.readDailyParsed
    = Ok series
    /\ rank series = Sample.BRONZE
    /\ totalScore series = 0%float
    /\ createdAt series = 1762018380123%Z
    /\ lastActivityAt series = 1762018380123%Z
    /\ createdAt series = lastActivityAt series.
Proof.
  eexists. split; [vm_compute; reflexivity|].
  match goal with
  | |- rank ?series = _ /\ _ =>
      pose proof (@fromAIOutput_safe_defaults Host.runtime Sample.imports
                    1762018380123%Z (JSString (lit "series-1"))
                    Sample.readDailyParsed series
                    ltac:(vm_compute; reflexivity)) as H
  end.
  exact H.
Defined.

(** C1 on the end-to-end scenario.  The normalization output parses
    and passes validation, and the factory, given an identifier and the
    parsed data as its signature asks, builds the entity whose DTO has
    the title "Read Daily" and three actions.  The use case, however,
    hands the factory the parsed data alone: the factory throws a
    [TypeError] on its missing [input], after the three AI calls and the
    reading of the clock, and the run ends there, with no repository
    call and no DTO. *)
Theorem createHabitSeries_end_to_end :
  let result :=
    run Sample.endToEnd []
      (createHabitSeries (lit "u1") (Some Sample.request) (Some Sample.deps)) in
  Host.parse Sample.readDaily = Ok Sample.readDailyParsed
  /\ validateAIOutput Sample.readDailyParsed = Ok accepted
  /\ (exists series,
        fromAIOutput 1762018380123%Z (JSString (lit "series-1")) Sample.readDailyParsed
        = Ok series
        /\ dto_title (toDTO series) = JSString (lit "Read Daily")
        /\ List.length (dto_actions (toDTO series)) = 3)
  /\ fst result
     = Thrown (mkError TypeError
         (lit "Cannot read properties of undefined (reading 'actions')"))
  /\ map isAICall (snd result) = [true; true; true; false]
  /\ existsb isRepositoryCall (snd result) = false.
Proof.
  cbv zeta.
  split; [vm_compute; reflexivity|].
  split; [vm_compute; reflexivity|].
  split; [eexists; split; [vm_compute; reflexivity|]; split; vm_compute; reflexivity|].
  repeat split; vm_compute; reflexivity.
Qed.

End ScenarioProperties.

(* ================================================================== *)
(** * Further properties of the code *)
(* ================================================================== *)

(** ** Trimming *)

Lemma trimStart_nil (s : jsstring) :
  trimStart s = [] <-> forallb isWhiteSpace s = true.
Proof.
  induction s as [|c s IH]; cbn [trimStart forallb]; [tauto|].
  destruct (isWhiteSpace c); cbn [andb]; [exact IH | split; discriminate].
Qed.

Lemma trimStart_head (s : jsstring) (c : N) (rest : jsstring) :
  trimStart s = c :: rest -> isWhiteSpace c = false.
Proof.
  induction s as [|c0 s IH]; cbn [trimStart]; [discriminate|].
  destruct (isWhiteSpace c0) eqn:Hc0; [exact IH|].
  intros [= <- _]; exact Hc0.
Qed.

Lemma trim_nil (s : jsstring) :
  trim s = [] <-> forallb isWhiteSpace s = true.
Proof.
  unfold trim, trimEnd. split.
  - intro H. apply (f_equal (@rev N)) in H. rewrite rev_involutive in H.
    cbn [rev] in H. apply trimStart_nil in H.
    destruct (trimStart s) as [|c rest] eqn:Hstart; [apply trimStart_nil, Hstart|].
    apply trimStart_head in Hstart.
    rewrite forallb_forall in H. specialize (H c).
    rewrite H in Hstart; [discriminate|].
    apply in_rev. rewrite rev_involutive. left; reflexivity.
  - intro H. apply trimStart_nil in H. rewrite H. reflexivity.
Qed.

Lemma isText_blank (s : jsstring) :
  isText (JSString s) = negb (forallb isWhiteSpace s).
Proof.
  cbn [isText]. destruct (trim s) as [|c rest] eqn:Htrim.
  - apply trim_nil in Htrim. rewrite Htrim; reflexivity.
  - destruct (forallb isWhiteSpace s) eqn:Hall; [|reflexivity].
    apply trim_nil in Hall. congruence.
Qed.

(** ** The validator: what it ignores, what it reports *)

Lemma field_other (key k : jsstring) (v : JSValue)
    (properties : list (jsstring * JSValue)) :
  key <> k ->
  field (JSObject ((key, v) :: properties)) k = field (JSObject properties) k.
Proof.
  intro H. apply eqb_neq in H. cbn [field lookup]. rewrite H. reflexivity.
Qed.

(** X1.  The validator reads [title], [description] and [actions] and
    nothing else: a candidate with one more property, under any other
    key and with any value, gets the same verdict. *)
Theorem validateAIOutput_ignores_other_properties (key : jsstring) (v : JSValue)
    (properties : list (jsstring * JSValue)) :
  key <> lit "title" -> key <> lit "description" -> key <> lit "actions" ->
  validateAIOutput (JSObject ((key, v) :: properties))
  = validateAIOutput (JSObject properties).
Proof.
  intros Ht Hd Ha. rewrite !validateAIOutput_rules. unfold rules.
  rewrite !(field_other v properties Ht), !(field_other v properties Hd),
    !(field_other v properties Ha).
  reflexivity.
Qed.

Lemma validateAIOutput_ignores_other_properties_witness :
  lit "id" <> lit "title" /\ lit "id" <> lit "description"
  /\ lit "id" <> lit "actions"
  /\ validateAIOutput
       (JSObject [ (lit "id", JSNumber 7); (lit "title", JSString (lit "T")) ])
     = validateAIOutput (JSObject [ (lit "title", JSString (lit "T")) ]).
Proof.
  assert (H1 : lit "id" <> lit "title") by discriminate.
  assert (H2 : lit "id" <> lit "description") by discriminate.
  assert (H3 : lit "id" <> lit "actions") by discriminate.
  repeat (split; [assumption|]).
  exact (validateAIOutput_ignores_other_properties (JSNumber 7)
           [ (lit "title", JSString (lit "T")) ] H1 H2 H3).
Defined.

(** X2.  A title made of white space only (spaces, tabs, line ends,
    no-break spaces, ...) is rejected like a missing one. *)
Theorem validateAIOutput_blank_title (title : jsstring)
    (properties : list (jsstring * JSValue)) :
  forallb isWhiteSpace title = true ->
  validateAIOutput (JSObject ((lit "title", JSString title) :: properties))
  = Ok (rejected (lit "Invalid or missing title")).
Proof.
  intro Hblank. rewrite validateAIOutput_rules. unfold rules, firstViolation.
  cbn [app find passes isObject negb field lookup JS.eqb N.eqb Pos.eqb andb].
  rewrite isText_blank, Hblank. reflexivity.
Qed.

Lemma validateAIOutput_blank_title_witness :
  forallb isWhiteSpace [32; 9; 160; 8239]%N = true
  /\ validateAIOutput
       (JSObject [ (lit "title", JSString [32; 9; 160; 8239]%N);
                   (lit "description", JSString (lit "D")) ])
     = Ok (rejected (lit "Invalid or missing title")).
Proof.
  split; [reflexivity|].
  exact (validateAIOutput_blank_title [32; 9; 160; 8239]%N
           [ (lit "description", JSString (lit "D")) ] eq_refl).
Defined.

(** X3.  The difficulty of an action is not held against any enumeration:
    every string that is not blank is accepted. *)
Theorem validateAIOutput_any_difficulty (difficulty : jsstring) :
  trim difficulty <> [] ->
  validateAIOutput (candidateWithDifficulty difficulty) = Ok accepted.
Proof.
  intro Hd. apply validateAIOutput_accepted.
  unfold wellFormedCandidate, candidateWithDifficulty.
  split; [eexists; split; [reflexivity | discriminate]|].
  split; [eexists; split; [reflexivity | discriminate]|].
  eexists; split; [reflexivity|]. split; [cbn; lia|].
  repeat constructor;
    try (eexists; split; [reflexivity | discriminate]);
    (eexists; split; [reflexivity | exact Hd]).
Qed.

Lemma validateAIOutput_any_difficulty_witness :
  trim (lit "impossible") <> []
  /\ validateAIOutput (candidateWithDifficulty (lit "impossible")) = Ok accepted.
Proof.
  assert (H : trim (lit "impossible") <> []) by discriminate.
  split; [exact H|].
  exact (validateAIOutput_any_difficulty (lit "impossible") H).
Defined.

Lemma firstViolation_app_pass (rs1 rs2 : list Rule) :
  forallb passes rs1 = true ->
  firstViolation (rs1 ++ rs2) = firstViolation rs2.
Proof.
  unfold firstViolation. induction rs1 as [|r rs1 IH]; cbn [forallb app find];
    [reflexivity|].
  intros H; apply andb_true_iff in H as [Hr Hrs]. rewrite Hr; cbn [negb]; auto.
Qed.

Lemma actionsRules_app (actions rest : list JSValue) (i : nat) :
  actionsRules (actions ++ rest) i
  = actionsRules actions i ++ actionsRules rest (i + List.length actions).
Proof.
  revert i; induction actions as [|a actions IH]; intro i; cbn [app actionsRules List.length].
  - rewrite Nat.add_0_r; reflexivity.
  - rewrite IH, <- app_assoc, Nat.add_succ_r. reflexivity.
Qed.

Lemma actionRules_other (i : nat) (key : jsstring) (v : JSValue)
    (properties : list (jsstring * JSValue)) :
  key <> lit "name" -> key <> lit "description" -> key <> lit "difficulty" ->
  actionRules i (JSObject ((key, v) :: properties))
  = actionRules i (JSObject properties).
Proof.
  intros Hn Hd Hf. unfold actionRules.
  rewrite !(field_other v properties Hn), !(field_other v properties Hd),
    !(field_other v properties Hf).
  reflexivity.
Qed.



(** X5.  When title, description and the number of actions are in order, the
    reason names the first malformed action by its index, whatever the
    actions after it look like. *)
Theorem validateAIOutput_names_first_malformed_action (data : JSValue)
    (good : list JSValue) (bad : JSValue) (rest : list JSValue) :
  hasText data (lit "title") -> hasText data (lit "description") ->
  field data (lit "actions") = JSArray (good ++ bad :: rest) ->
  3 <= List.length (good ++ bad :: rest) <= 5 ->
  Forall wellFormedAction good -> ~ wellFormedAction bad ->
  exists detail,
    In detail [ lit "] is not an object"; lit "].name invalid";
                lit "].description invalid"; lit "].difficulty invalid" ]
    /\ validateAIOutput data
       = Ok (rejected (lit "actions[" ++ indexToString (List.length good) ++ detail)).
Proof.
  intros Ht Hd Ha [H3 H5] Hgood Hbad.
  pose proof (hasText_isObject Ht) as Hobj.
  apply isText_hasText in Ht, Hd. apply Nat.leb_le in H3, H5.
  assert (Hgood' : forallb wellFormedActionB good = true).
  { apply forallb_forall; intros a Hin. apply wellFormedActionB_spec.
    rewrite Forall_forall in Hgood; auto. }
  assert (Hbad' : wellFormedActionB bad = false).
  { destruct (wellFormedActionB bad) eqn:Hb; [|reflexivity].
    apply wellFormedActionB_spec in Hb. contradiction. }
  rewrite validateAIOutput_rules. unfold rules.
  rewrite firstViolation_app_pass.
  2:{ cbn [forallb passes]. rewrite Hobj, Ht, Hd, Ha.
      cbn [isArray lengthInBounds]. rewrite H3, H5. reflexivity. }
  rewrite Ha; cbn [elementsOf]. rewrite actionsRules_app.
  rewrite firstViolation_app_pass by (rewrite actionsRules_pass; exact Hgood').
  cbn [actionsRules Nat.add]. unfold actionRules, firstViolation, wellFormedActionB in *.
  cbn [app find passes].
  destruct (isObject bad); cbn [negb];
    [|eexists; split; [left; reflexivity | reflexivity]].
  destruct (isText (field bad _)); cbn [negb];
    [|eexists; split; [right; left; reflexivity | reflexivity]].
  destruct (isText (field bad _)); cbn [negb];
    [|eexists; split; [right; right; left; reflexivity | reflexivity]].
  destruct (isText (field bad _)); cbn [negb];
    [discriminate Hbad'
    |eexists; split; [right; right; right; left; reflexivity | reflexivity]].
Qed.

Lemma validateAIOutput_names_first_malformed_action_witness :
  exists detail,
    In detail [ lit "] is not an object"; lit "].name invalid";
                lit "].description invalid"; lit "].difficulty invalid" ]
    /\ validateAIOutput
         (candidate "T" ([sampleAction "a0"; sampleAction "a1"]
                         ++ JSNumber 4 :: [JSNull; JSNull]))
       = Ok (rejected (lit "actions[" ++ indexToString 2 ++ detail)).
Proof.
  refine (@validateAIOutput_names_first_malformed_action
            (candidate "T" ([sampleAction "a0"; sampleAction "a1"]
                            ++ JSNumber 4 :: [JSNull; JSNull]))
            [sampleAction "a0"; sampleAction "a1"] (JSNumber 4) [JSNull; JSNull]
            _ _ eq_refl _ _ _).
  - eexists; split; [reflexivity | discriminate].
  - eexists; split; [reflexivity | discriminate].
  - cbn; lia.
  - repeat constructor; eexists; split; try reflexivity; discriminate.
  - intros [(s & Hs & _) _]; discriminate Hs.
Defined.

Lemma actionsRules_reason (actions : list JSValue) (i : nat) (r : Rule) :
  In r (actionsRules actions i) -> exists tail, reason r = 97%N :: tail.
Proof.
  revert i; induction actions as [|a actions IH]; intro i; cbn [actionsRules];
    [intros []|].
  rewrite in_app_iff. intros [H|H]; [|exact (IH _ H)].
  unfold actionRules in H. cbn [In] in H.
  destruct H as [<-|[<-|[<-|[<-|[]]]]]; eexists; reflexivity.
Qed.

(** X6.  On the JSON-like values, the reason ["Output is not an
    object"] is given exactly to those that are no object at all:
    undefined, null, booleans, numbers and strings.  An array passes
    this guard: whatever it is turned down for, it is not that. *)
Theorem validateAIOutput_not_an_object (data : JSValue) :
  (validateAIOutput data = Ok (rejected (lit "Output is not an object"))
   <-> isObject data = false)
  /\ forall elements,
       validateAIOutput (JSArray elements)
       <> Ok (rejected (lit "Output is not an object")).
Proof.
  assert (Hiff : forall data,
            validateAIOutput data = Ok (rejected (lit "Output is not an object"))
            <-> isObject data = false).
  { clear data; intro data. rewrite validateAIOutput_rules. split.
    - intro H. destruct (isObject data) eqn:Hobj; [exfalso|reflexivity].
      destruct (firstViolation (rules data)) as [r|] eqn:Hfirst; [|discriminate H].
      cbn [verdictOf] in H. injection H as H.
      destruct (firstViolation_some _ Hfirst) as (before & after & Hsplit & _ & Hr).
      assert (Hin : In r (rules data)) by (rewrite Hsplit; apply in_elt).
      unfold rules in Hin. rewrite in_app_iff in Hin. cbn [In] in Hin.
      destruct Hin as [[<-|[<-|[<-|[<-|[<-|[]]]]]]|Hin];
        try discriminate H.
      + cbn [passes] in Hr. congruence.
      + destruct (actionsRules_reason _ _ _ Hin) as (tail & Htail).
        rewrite Htail in H. discriminate H.
    - intro Hobj. unfold rules, firstViolation. cbn [app find passes].
      rewrite Hobj. reflexivity. }
  split; [apply Hiff|].
  intros elements H. apply Hiff in H. discriminate H.
Qed.

(** ** The router and the adapters behind it *)

Lemma startsWith_spec (s searchString : jsstring) :
  startsWith s searchString = true <-> exists suffix, s = searchString ++ suffix.
Proof.
  revert s; induction searchString as [|p searchString IH]; intros s.
  - destruct s; cbn [startsWith app]; split; eauto.
  - destruct s as [|c s]; cbn [startsWith app].
    + split; [discriminate | intros [suffix H]; discriminate H].
    + rewrite andb_true_iff, N.eqb_eq, IH. split.
      * intros [-> [suffix ->]]. exists suffix; reflexivity.
      * intros [suffix [= -> ->]]. split; [reflexivity | exists suffix; reflexivity].
Qed.

Lemma JSString_inj (a b : jsstring) : JSString a = JSString b -> a = b.
Proof. congruence. Qed.

(** X7.  The router decides on the prefix alone: every string that begins
    with "gpt-" or "o1-" goes to the OpenAI adapter and every string
    that begins with "gemini-" to the Gemini adapter, whatever follows
    the prefix, and no other value gets an adapter. *)
Theorem getAdapterForModel_by_prefix (model : JSValue) :
  (getAdapterForModel model = Ok openaiAdapter
   <-> exists suffix,
         model = JSString (lit "gpt-" ++ suffix)
         \/ model = JSString (lit "o1-" ++ suffix))
  /\ (getAdapterForModel model = Ok geminiAdapter
      <-> exists suffix, model = JSString (lit "gemini-" ++ suffix)).
Proof.
  destruct model as [ | |b|x|m|items|properties];
    try (rewrite getAdapterForModel_not_string by discriminate;
         split;
         [split; [discriminate | intros [suffix [H|H]]; discriminate H]
         |split; [discriminate | intros [suffix H]; discriminate H]]).
  rewrite getAdapterForModel_string.
  pose proof (startsWith_spec m (lit "gpt-")) as Hgpt.
  pose proof (startsWith_spec m (lit "o1-")) as Ho1.
  pose proof (startsWith_spec m (lit "gemini-")) as Hgemini.
  destruct m as [|c m].
  { split;
      [split; [discriminate | intros [suffix [H|H]]; discriminate H]
      |split; [discriminate | intros [suffix H]; discriminate H]]. }
  destruct (startsWith (c :: m) (lit "gpt-")) eqn:Egpt.
  { destruct (proj1 Hgpt eq_refl) as [suffix Hs]. cbn [orb]. split.
    - split; [intros _; exists suffix; left; congruence | reflexivity].
    - split; [discriminate | intros [suffix' [= Hc Hm]];
        rewrite Hc, Hm in Hs; discriminate Hs]. }
  destruct (startsWith (c :: m) (lit "o1-")) eqn:Eo1.
  { destruct (proj1 Ho1 eq_refl) as [suffix Hs]. cbn [orb]. split.
    - split; [intros _; exists suffix; right; congruence | reflexivity].
    - split; [discriminate | intros [suffix' [= Hc Hm]];
        rewrite Hc, Hm in Hs; discriminate Hs]. }
  cbn [orb].
  assert (Hnot : ~ exists suffix,
             JSString (c :: m) = JSString (lit "gpt-" ++ suffix)
             \/ JSString (c :: m) = JSString (lit "o1-" ++ suffix)).
  { intros [suffix [H|H]]; apply JSString_inj in H.
    - assert (false = true) by (apply Hgpt; exists suffix; exact H). discriminate.
    - assert (false = true) by (apply Ho1; exists suffix; exact H). discriminate. }
  destruct (startsWith (c :: m) (lit "gemini-")) eqn:Egemini.
  - destruct (proj1 Hgemini eq_refl) as [suffix Hs]. split.
    + split; [discriminate | intro H; destruct (Hnot H)].
    + split; [intros _; exists suffix; congruence | reflexivity].
  - split.
    + split; [discriminate | intro H; destruct (Hnot H)].
    + split; [discriminate|]. intros [suffix H]. apply JSString_inj in H.
      assert (false = true) by (apply Hgemini; exists suffix; exact H). discriminate.
Qed.

(** X8.  Every model the pass policy can select is one the router can
    serve: the creative and the structural pass go to the Gemini
    adapter, the JSON conversion to the OpenAI adapter. *)
Theorem getHabitSeriesAIConfig_routable (functionType : PassKey) :
  getAdapterForModel (JSString (model (getHabitSeriesAIConfig functionType)))
  = Ok match functionType with
       | json_conversion => openaiAdapter
       | _ => geminiAdapter
       end.
Proof. destruct functionType; vm_compute; reflexivity. Qed.

Section AdapterProperties.
Context {vendor : Vendor} {openai : OpenAI}.

Lemma mapMessages_Ok (callback : Message -> Outcome Message)
    (messages sanitized : list Message) :
  mapMessages callback messages = Ok sanitized ->
  Forall2 (fun m m' => callback m = Ok m') messages sanitized.
Proof.
  revert sanitized; induction messages as [|m rest IH]; intros sanitized;
    cbn [mapMessages].
  - intros [= <-]. constructor.
  - destruct (callback m) as [m'|e] eqn:Hm; cbn [bind]; [|discriminate].
    destruct (mapMessages callback rest) as [rest'|e] eqn:Hrest; cbn [bind];
      [|discriminate].
    intros [= <-]. constructor; auto.
Qed.

(** X9.  The adapter sanitizes what the user wrote and nothing else: the
    messages keep their number, order and roles, a message of any other
    role (system, assistant, ...) reaches the prompt exactly as it came,
    and a user message carries the sanitizer's output. *)
Theorem sanitizeMessage_only_user (messages sanitized : list Message) :
  mapMessages sanitizeMessage messages = Ok sanitized ->
  Forall2
    (fun m m' =>
       role m' = role m
       /\ (role m <> lit "user" -> m' = m)
       /\ (role m = lit "user" -> sanitizeUserInput (content m) = Ok (content m')))
    messages sanitized.
Proof.
  intro H. apply mapMessages_Ok in H.
  induction H as [|m m' rest rest' Hm _ IH]; constructor; [|exact IH].
  unfold sanitizeMessage in Hm.
  destruct (JS.eqb (role m) _) eqn:Hrole.
  - apply eqb_eq in Hrole.
    destruct (sanitizeUserInput (content m)) as [text|e]; cbn [bind] in Hm;
      [|discriminate Hm].
    injection Hm as <-. cbn [role content].
    split; [reflexivity|]. split; [intro Hn; destruct (Hn Hrole) | reflexivity].
  - apply eqb_neq in Hrole. injection Hm as <-.
    split; [reflexivity|]. split; [reflexivity | intro Hu; destruct (Hrole Hu)].
Qed.

Lemma GeminiAdapter_callAI_Ok (userId : jsstring) (messages : list Message)
    (options : option CallOptions) (response : AIResponse) :
  GeminiAdapter_callAI userId messages options = Ok response ->
  exists sanitized,
    mapMessages sanitizeMessage messages = Ok sanitized
    /\ response
       = mkAIResponse (response_content response)
           (orDefault (options_model (nullish options noOptions))
              (JSString (lit "gemini-2.5-flash")))
           (calculateGeminiTokens (response_content response))
           (calculateGeminiEnergy (JSString (geminiPrompt sanitized))
              (response_content response)).
Proof.
  unfold GeminiAdapter_callAI, GeminiAdapter_attempt.
  destruct (getModel _) as [geminiModel|e]; cbn [bind]; [|discriminate].
  destruct (mapMessages sanitizeMessage messages) as [sanitized|e]; cbn [bind];
    [|discriminate].
  destruct (generateContent _ _ _ _) as [text|e]; cbn [bind]; [|discriminate].
  intros [= <-]. exists sanitized; split; reflexivity.
Qed.

(** X10.  A successful Gemini call reports the model it was asked for (by
    default "gemini-2.5-flash"), counts the tokens of the text the
    vendor returned, and charges the energy of that text and of the
    prompt actually sent, the one built from the sanitized messages. *)
Theorem GeminiAdapter_callAI_accounting (userId : jsstring)
    (messages : list Message) (options : option CallOptions) (response : AIResponse) :
  GeminiAdapter_callAI userId messages options = Ok response ->
  response_model response
  = orDefault (options_model (nullish options noOptions))
      (JSString (lit "gemini-2.5-flash"))
  /\ tokensUsed response = calculateGeminiTokens (response_content response)
  /\ exists sanitized,
       mapMessages sanitizeMessage messages = Ok sanitized
       /\ energyConsumed response
          = calculateGeminiEnergy (JSString (geminiPrompt sanitized))
              (response_content response).
Proof.
  intro H. destruct (GeminiAdapter_callAI_Ok _ _ _ H) as (sanitized & Hs & Hr).
  destruct response as [text name tokens energy].
  cbn [response_content response_model tokensUsed energyConsumed] in *.
  injection Hr as Hname Htokens Henergy.
  split; [exact Hname|]. split; [exact Htokens|].
  exists sanitized; split; [exact Hs | exact Henergy].
Qed.


(** X12.  A function-type call through the router is a plain Gemini call with
    the defaults, whoever calls and whatever the function type: the
    pass policy is not consulted, and a successful answer always names
    "gemini-2.5-flash" as its model. *)
Theorem AIProviderRouter_callAIWithFunctionType_default
    (userId : jsstring) (messages : list Message) (functionType : jsstring) :
  AIProviderRouter_callAIWithFunctionType userId messages functionType
  = AIProviderRouter_callAI userId messages None
  /\ forall response,
       AIProviderRouter_callAIWithFunctionType userId messages functionType
       = Ok response ->
       response_model response = JSString (lit "gemini-2.5-flash").
Proof.
  unfold AIProviderRouter_callAIWithFunctionType,
    GeminiAdapter_callAIWithFunctionType, AIProviderRouter_callAI.
  cbn [nullish noOptions options_model orDefault].
  replace (getAdapterForModel (JSString (lit "gemini-2.5-flash")))
    with (Ok geminiAdapter) by (vm_compute; reflexivity).
  cbn [bind]. split; [reflexivity|].
  intros response H.
  destruct (GeminiAdapter_callAI_Ok _ _ _ H) as (sanitized & _ & Hr).
  destruct response as [text name tokens energy].
  cbn [response_content response_model nullish options_model orDefault] in *.
  injection Hr as Hname _ _. exact Hname.
Qed.

End AdapterProperties.

(** ** The use case: how a run ends *)

Section UseCaseOutcomes.
Context {runtime : Runtime} {imports : Imports}.

Variables (world : World) (history : list Event).
Arguments world : clear implicits.
Variables (userId language : jsstring) (assistantContext : option jsstring).
Variables (testData : list (jsstring * jsstring)).
Variables (users : UserRepository) (series : HabitSeriesRepository).
Variables (energy : EnergyRepository) (ai : AIProvider).

(** After the three passes the run goes on from the third response. *)
Ltac after_passes H :=
  let creativeResponse := fresh "creativeResponse" in
  let structureResponse := fresh "structureResponse" in
  let H1 := fresh "H1" in let Hraw := fresh "Hraw" in
  let H2 := fresh "H2" in let Hstructured := fresh "Hstructured" in
  let H3 := fresh "H3" in
  destruct H as (creativeResponse & structureResponse & H1 & Hraw & H2
                 & Hstructured & H3);
  unfold completeRequest, createHabitSeries;
  cbn [userRepository habitSeriesRepository energyRepository aiProvider run];
  rewrite H1, Hraw; cbn [lift run];
  rewrite H2, Hstructured; cbn [lift run];
  rewrite H3.

(** X13.  When the parsed output of the third pass does not pass validation,
    the run ends in the [ValidationError] "AI output validation
    failed: " followed by the validator's reason, after the three AI
    calls and nothing else: the clock is not read and no repository is
    called. *)
Theorem createHabitSeries_invalid_output
    (rawText structured schemaResponse parsed : JSValue) (reason : jsstring) :
  language <> [] ->
  passesAnswer world history userId language assistantContext testData ai energy
    rawText structured schemaResponse ->
  parseContent schemaResponse = Ok parsed ->
  validateAIOutput parsed = Ok (rejected reason) ->
  run world history
    (completeRequest userId language assistantContext testData users series energy ai)
  = (Thrown (mkError ValidationError
       (lit "AI output validation failed: " ++ reason)),
     history ++ aiTrace userId language assistantContext testData rawText structured
                  ai energy).
Proof.
  intros Hlanguage Hpasses Hparsed Hinvalid.
  destruct language as [|c rest] eqn:El; [congruence|].
  after_passes Hpasses.
  rewrite Hparsed, Hinvalid. cbn [lift rejected valid error negb run].
  unfold aiTrace. rewrite <- !app_assoc. reflexivity.
Qed.

(** X14.  Whenever the output of the third pass passes validation, the run
    reads the clock and then ends in the factory's [TypeError]: the
    factory is handed the parsed output alone and reads [actions] of a
    missing second argument.  No repository has been called. *)
Theorem createHabitSeries_valid_output_fails_in_factory
    (rawText structured schemaResponse parsed : JSValue) (now : Date) :
  let trace :=
    history
    ++ aiTrace userId language assistantContext testData rawText structured ai energy in
  language <> [] ->
  passesAnswer world history userId language assistantContext testData ai energy
    rawText structured schemaResponse ->
  parseContent schemaResponse = Ok parsed ->
  validateAIOutput parsed = Ok accepted ->
  world _ trace newDate = Ok now ->
  run world history
    (completeRequest userId language assistantContext testData users series energy ai)
  = (Thrown (mkError TypeError
       (lit "Cannot read properties of undefined (reading 'actions')")),
     trace ++ [existT _ _ newDate]).
Proof.
  intros trace Hlanguage Hpasses Hparsed Hvalid Hnow.
  unfold trace, aiTrace in *.
  destruct language as [|c rest] eqn:El; [congruence|].
  after_passes Hpasses.
  rewrite Hparsed, Hvalid. cbn [lift accepted valid negb run].
  rewrite <- !app_assoc. cbn [app]. unfold Event in *.
  rewrite Hnow. rewrite fromAIOutput_undefined. cbn [lift run].
  reflexivity.
Qed.

(** X15.  A failure of the AI execution service in the first pass ends the
    run with the service's own error, unchanged, and no further call is
    made. *)
Theorem createHabitSeries_creative_pass_fails (e : JSError) :
  let creative := creativePass userId language assistantContext testData ai energy in
  language <> [] ->
  world _ history creative = Thrown e ->
  run world history
    (completeRequest userId language assistantContext testData users series energy ai)
  = (Thrown e, history ++ [existT _ _ creative]).
Proof.
  intros creative Hlanguage H1.
  destruct language as [|c rest] eqn:El; [congruence|].
  unfold completeRequest, createHabitSeries.
  cbn [userRepository habitSeriesRepository energyRepository aiProvider run].
  fold creative. rewrite H1. reflexivity.
Qed.

(** X16.  A failure of the AI execution service in the second pass ends the
    run with the service's own error, after two AI calls: the third
    pass is not attempted. *)
Theorem createHabitSeries_structure_pass_fails
    (creativeResponse rawText : JSValue) (e : JSError) :
  let creative := creativePass userId language assistantContext testData ai energy in
  let structure := structurePass userId language rawText ai energy in
  language <> [] ->
  world _ history creative = Ok creativeResponse ->
  get creativeResponse (lit "content") = Ok rawText ->
  world _ (history ++ [existT _ _ creative]) structure = Thrown e ->
  run world history
    (completeRequest userId language assistantContext testData users series energy ai)
  = (Thrown e, history ++ [existT _ _ creative; existT _ _ structure]).
Proof.
  intros creative structure Hlanguage H1 Hraw H2.
  destruct language as [|c rest] eqn:El; [congruence|].
  unfold completeRequest, createHabitSeries.
  cbn [userRepository habitSeriesRepository energyRepository aiProvider run].
  fold creative. rewrite H1, Hraw; cbn [lift run].
  fold structure. rewrite H2.
  rewrite <- !app_assoc. reflexivity.
Qed.

(** X17.  A failure of the AI execution service in the third pass ends the
    run with the service's own error: the call is made outside the
    [try] block, so the error is not turned into "AI output is not
    valid JSON". *)
Theorem createHabitSeries_schema_pass_fails
    (creativeResponse rawText structureResponse structured : JSValue) (e : JSError) :
  let creative := creativePass userId language assistantContext testData ai energy in
  let structure := structurePass userId language rawText ai energy in
  let schema := schemaPass userId structured ai energy in
  language <> [] ->
  world _ history creative = Ok creativeResponse ->
  get creativeResponse (lit "content") = Ok rawText ->
  world _ (history ++ [existT _ _ creative]) structure = Ok structureResponse ->
  get structureResponse (lit "content") = Ok structured ->
  world _ ((history ++ [existT _ _ creative]) ++ [existT _ _ structure]) schema
  = Thrown e ->
  run world history
    (completeRequest userId language assistantContext testData users series energy ai)
  = (Thrown e,
     history
     ++ aiTrace userId language assistantContext testData rawText structured ai energy).
Proof.
  intros creative structure schema Hlanguage H1 Hraw H2 Hstructured H3.
  destruct language as [|c rest] eqn:El; [congruence|].
  unfold completeRequest, createHabitSeries.
  cbn [userRepository habitSeriesRepository energyRepository aiProvider run].
  fold creative. rewrite H1, Hraw; cbn [lift run].
  fold structure. rewrite H2, Hstructured; cbn [lift run].
  fold schema. rewrite H3.
  unfold aiTrace. rewrite <- !app_assoc. reflexivity.
Qed.

(** X18.  A first response that is [undefined] or [null] is not guarded
    against: reading its [content] throws, and the run ends in that
    [TypeError] after the one AI call. *)
Theorem createHabitSeries_missing_creative_response
    (creativeResponse : JSValue) :
  let creative := creativePass userId language assistantContext testData ai energy in
  language <> [] ->
  world _ history creative = Ok creativeResponse ->
  creativeResponse = JSUndefined \/ creativeResponse = JSNull ->
  exists message,
    run world history
      (completeRequest userId language assistantContext testData users series energy ai)
    = (Thrown (mkError TypeError message), history ++ [existT _ _ creative]).
Proof.
  intros creative Hlanguage H1 Hmissing.
  destruct language as [|c rest] eqn:El; [congruence|].
  unfold completeRequest, createHabitSeries.
  cbn [userRepository habitSeriesRepository energyRepository aiProvider run].
  fold creative. rewrite H1.
  destruct Hmissing as [-> | ->]; cbn [get lift run]; eexists; reflexivity.
Qed.

(** X19.  A third response whose [content] cannot be read ([undefined] or
    [null] in place of the response) is reported as "AI output is not
    valid JSON": the read happens inside the [try] block, whose handler
    gives every error that message. *)
Theorem createHabitSeries_missing_schema_response
    (rawText structured schemaResponse : JSValue) :
  language <> [] ->
  passesAnswer world history userId language assistantContext testData ai energy
    rawText structured schemaResponse ->
  schemaResponse = JSUndefined \/ schemaResponse = JSNull ->
  run world history
    (completeRequest userId language assistantContext testData users series energy ai)
  = (Thrown (mkError ValidationError (lit "AI output is not valid JSON")),
     history
     ++ aiTrace userId language assistantContext testData rawText structured ai energy).
Proof.
  intros Hlanguage Hpasses Hmissing.
  destruct language as [|c rest] eqn:El; [congruence|].
  after_passes Hpasses.
  destruct Hmissing as [-> | ->]; unfold parseContent; cbn [get bind run];
    unfold aiTrace; rewrite <- !app_assoc; reflexivity.
Qed.

End UseCaseOutcomes.

Section UseCaseInvariant.
Context {runtime : Runtime} {imports : Imports}.

(** The run stops at this point, after [n] calls. *)
Ltac ends_after n :=
  do 2 eexists;
  split; [rewrite <- ?app_assoc; reflexivity
         |split; [exists n; reflexivity | reflexivity]].

Ltac ends_at_once :=
  eexists; exists []; rewrite app_nil_r;
  split; [reflexivity | split; [exists 0; reflexivity | reflexivity]].

(** X20.  Whatever the request and whatever the collaborators answer, a run
    of the use case calls the AI execution service at most three times,
    reads the clock only after the third AI call, never calls a
    repository, and ends in an error. *)
Theorem createHabitSeries_calls (world : World) (history : list Event)
    (userId : jsstring) (payload : option Payload) (deps : option Deps) :
  exists e trace,
    run world history (createHabitSeries userId payload deps)
    = (Thrown e, history ++ trace)
    /\ (exists n, map isAICall trace = firstn n [true; true; true; false])
    /\ existsb isRepositoryCall trace = false.
Proof.
  unfold createHabitSeries.
  destruct deps as [deps|]; [|ends_at_once].
  destruct (userRepository deps), (habitSeriesRepository deps),
    (energyRepository deps), (aiProvider deps); try ends_at_once.
  destruct payload as [[[[|c language]|] context [entries|]]|]; try ends_at_once.
  cbn [run].
  destruct (world _ _ _) as [creativeResponse|failure]; [|ends_after 1].
  destruct (get creativeResponse _) as [rawText|failure]; cbn [lift run]; [|ends_after 1].
  destruct (world _ _ _) as [structureResponse|failure]; [|ends_after 2].
  destruct (get structureResponse _) as [structured|failure]; cbn [lift run];
    [|ends_after 2].
  destruct (world _ _ _) as [schemaResponse|failure]; [|ends_after 3].
  destruct (parseContent schemaResponse) as [parsed|failure]; cbn [run]; [|ends_after 3].
  destruct (validateAIOutput parsed) as [validation|failure]; cbn [lift run];
    [|ends_after 3].
  destruct (valid validation); cbn [negb run]; [|ends_after 3].
  destruct (world _ _ _) as [now|failure]; [|ends_after 4].
  rewrite fromAIOutput_undefined. cbn [lift run]. ends_after 4.
Qed.

End UseCaseInvariant.

(** ** The outcomes on sample collaborators *)

Section OutcomeScenarios.

#[local] Existing Instance Host.runtime.
#[local] Existing Instance Sample.imports.

Lemma createHabitSeries_invalid_output_witness :
  run (Sample.world [ Sample.reply Sample.creativeText;
                      Sample.reply Sample.structuredText;
                      Sample.reply (JSString (lit "{}")) ] 0%Z) []
      (createHabitSeries (lit "u1") (Some Sample.request) (Some Sample.deps))
  = (Thrown (mkError ValidationError
       (lit "AI output validation failed: " ++ lit "Invalid or missing title")),
     [] ++ aiTrace (lit "u1") (lit "en") None [(lit "habit", lit "reading")]
             Sample.creativeText Sample.structuredText tt tt).
Proof.
  refine (@createHabitSeries_invalid_output Host.runtime Sample.imports
            (Sample.world [ Sample.reply Sample.creativeText;
                            Sample.reply Sample.structuredText;
                            Sample.reply (JSString (lit "{}")) ] 0%Z) []
            (lit "u1") (lit "en") None [(lit "habit", lit "reading")] tt tt tt tt
            Sample.creativeText Sample.structuredText
            (JSObject [(lit "content", JSString (lit "{}"))]) (JSObject [])
            (lit "Invalid or missing title") _ _ _ _).
  - discriminate.
  - exists (JSObject [(lit "content", Sample.creativeText)]),
      (JSObject [(lit "content", Sample.structuredText)]).
    do 4 (split; [vm_compute; reflexivity|]). vm_compute; reflexivity.
  - vm_compute; reflexivity.
  - vm_compute; reflexivity.
Defined.

Lemma createHabitSeries_valid_output_fails_in_factory_witness :
  run Sample.endToEnd []
      (createHabitSeries (lit "u1") (Some Sample.request) (Some Sample.deps))
  = (Thrown (mkError TypeError
       (lit "Cannot read properties of undefined (reading 'actions')")),
     ([] ++ aiTrace (lit "u1") (lit "en") None [(lit "habit", lit "reading")]
              Sample.creativeText Sample.structuredText tt tt)
     ++ [existT _ _ newDate]).
Proof.
  refine (@createHabitSeries_valid_output_fails_in_factory Host.runtime Sample.imports
            Sample.endToEnd [] (lit "u1") (lit "en") None
            [(lit "habit", lit "reading")] tt tt tt tt
            Sample.creativeText Sample.structuredText
            (JSObject [(lit "content", JSString Sample.readDaily)])
            Sample.readDailyParsed 1762018380123%Z _ _ _ _ _).
  - discriminate.
  - exists (JSObject [(lit "content", Sample.creativeText)]),
      (JSObject [(lit "content", Sample.structuredText)]).
    do 4 (split; [vm_compute; reflexivity|]). vm_compute; reflexivity.
  - vm_compute; reflexivity.
  - vm_compute; reflexivity.
  - vm_compute; reflexivity.
Defined.

Lemma createHabitSeries_creative_pass_fails_witness :
  run (Sample.world [] 0%Z) []
      (createHabitSeries (lit "u1") (Some Sample.request) (Some Sample.deps))
  = (Thrown (mkError Error (lit "Gemini provider error: no reply")),
     [] ++ [existT _ _ (creativePass (lit "u1") (lit "en") None
                          [(lit "habit", lit "reading")] tt tt)]).
Proof.
  refine (@createHabitSeries_creative_pass_fails Host.runtime Sample.imports
            (Sample.world [] 0%Z) [] (lit "u1") (lit "en") None
            [(lit "habit", lit "reading")] tt tt tt tt
            (mkError Error (lit "Gemini provider error: no reply")) _ _).
  - discriminate.
  - vm_compute; reflexivity.
Defined.

Lemma createHabitSeries_structure_pass_fails_witness :
  run (Sample.world [Sample.reply Sample.creativeText] 0%Z) []
      (createHabitSeries (lit "u1") (Some Sample.request) (Some Sample.deps))
  = (Thrown (mkError Error (lit "Gemini provider error: no reply")),
     [] ++ [ existT _ _ (creativePass (lit "u1") (lit "en") None
                           [(lit "habit", lit "reading")] tt tt);
             existT _ _ (structurePass (lit "u1") (lit "en") Sample.creativeText
                           tt tt) ]).
Proof.
  refine (@createHabitSeries_structure_pass_fails Host.runtime Sample.imports
            (Sample.world [Sample.reply Sample.creativeText] 0%Z) []
            (lit "u1") (lit "en") None [(lit "habit", lit "reading")] tt tt tt tt
            (JSObject [(lit "content", Sample.creativeText)]) Sample.creativeText
            (mkError Error (lit "Gemini provider error: no reply")) _ _ _ _).
  - discriminate.
  - vm_compute; reflexivity.
  - vm_compute; reflexivity.
  - vm_compute; reflexivity.
Defined.

Lemma createHabitSeries_schema_pass_fails_witness :
  run (Sample.world [ Sample.reply Sample.creativeText;
                      Sample.reply Sample.structuredText ] 0%Z) []
      (createHabitSeries (lit "u1") (Some Sample.request) (Some Sample.deps))
  = (Thrown (mkError Error (lit "Gemini provider error: no reply")),
     [] ++ aiTrace (lit "u1") (lit "en") None [(lit "habit", lit "reading")]
             Sample.creativeText Sample.structuredText tt tt).
Proof.
  refine (@createHabitSeries_schema_pass_fails Host.runtime Sample.imports
            (Sample.world [ Sample.reply Sample.creativeText;
                            Sample.reply Sample.structuredText ] 0%Z) []
            (lit "u1") (lit "en") None [(lit "habit", lit "reading")] tt tt tt tt
            (JSObject [(lit "content", Sample.creativeText)]) Sample.creativeText
            (JSObject [(lit "content", Sample.structuredText)]) Sample.structuredText
            (mkError Error (lit "Gemini provider error: no reply")) _ _ _ _ _ _).
  - discriminate.
  - vm_compute; reflexivity.
  - vm_compute; reflexivity.
  - vm_compute; reflexivity.
  - vm_compute; reflexivity.
  - vm_compute; reflexivity.
Defined.

Lemma createHabitSeries_missing_creative_response_witness :
  exists message,
    run (Sample.world [Ok JSUndefined] 0%Z) []
        (createHabitSeries (lit "u1") (Some Sample.request) (Some Sample.deps))
    = (Thrown (mkError TypeError message),
       [] ++ [existT _ _ (creativePass (lit "u1") (lit "en") None
                            [(lit "habit", lit "reading")] tt tt)]).
Proof.
  refine (@createHabitSeries_missing_creative_response Host.runtime Sample.imports
            (Sample.world [Ok JSUndefined] 0%Z) []
            (lit "u1") (lit "en") None [(lit "habit", lit "reading")] tt tt tt tt
            JSUndefined _ _ _).
  - discriminate.
  - vm_compute; reflexivity.
  - left; reflexivity.
Defined.

Lemma createHabitSeries_missing_schema_response_witness :
  run (Sample.world [ Sample.reply Sample.creativeText;
                      Sample.reply Sample.structuredText; Ok JSNull ] 0%Z) []
      (createHabitSeries (lit "u1") (Some Sample.request) (Some Sample.deps))
  = (Thrown (mkError ValidationError (lit "AI output is not valid JSON")),
     [] ++ aiTrace (lit "u1") (lit "en") None [(lit "habit", lit "reading")]
             Sample.creativeText Sample.structuredText tt tt).
Proof.
  refine (@createHabitSeries_missing_schema_response Host.runtime Sample.imports
            (Sample.world [ Sample.reply Sample.creativeText;
                            Sample.reply Sample.structuredText; Ok JSNull ] 0%Z) []
            (lit "u1") (lit "en") None [(lit "habit", lit "reading")] tt tt tt tt
            Sample.creativeText Sample.structuredText JSNull _ _ _).
  - discriminate.
  - exists (JSObject [(lit "content", Sample.creativeText)]),
      (JSObject [(lit "content", Sample.structuredText)]).
    do 4 (split; [vm_compute; reflexivity|]). vm_compute; reflexivity.
  - right; reflexivity.
Defined.

End OutcomeScenarios.

(** ** The adapters on a sample vendor *)

Section AdapterScenarios.

#[local] Existing Instance SampleVendor.vendor.
#[local] Existing Instance SampleVendor.openai.

Lemma sanitizeMessage_only_user_witness :
  Forall2
    (fun m m' =>
       role m' = role m
       /\ (role m <> lit "user" -> m' = m)
       /\ (role m = lit "user" -> sanitizeUserInput (content m) = Ok (content m')))
    [mkMessage (lit "system") (lit " Be brief "); mkMessage (lit "user") (lit " hello ")]
    [mkMessage (lit "system") (lit " Be brief "); mkMessage (lit "user") (lit "hello")].
Proof.
  apply (@sanitizeMessage_only_user SampleVendor.vendor).
  vm_compute; reflexivity.
Defined.

Lemma GeminiAdapter_callAI_accounting_witness :
  exists response,
    GeminiAdapter_callAI (lit "u1")
      [mkMessage (lit "system") (lit "Be brief"); mkMessage (lit "user") (lit " hello ")]
      None
    = Ok response
    /\ response_content response
       = JSString (lit "[SYSTEM INSTRUCTIONS]" ++ nl ++ lit "Be brief"
                   ++ nl ++ nl ++ lit "hello")
    /\ response_model response = JSString (lit "gemini-2.5-flash")
    /\ tokensUsed response = calculateGeminiTokens (response_content response).
Proof.
  eexists. split; [vm_compute; reflexivity|].
  split; [vm_compute; reflexivity|].
  match goal with
  | |- response_model ?response = _ /\ _ =>
      pose proof (@GeminiAdapter_callAI_accounting SampleVendor.vendor (lit "u1")
                    [mkMessage (lit "system") (lit "Be brief");
                     mkMessage (lit "user") (lit " hello ")]
                    None response ltac:(vm_compute; reflexivity)) as H
  end.
  split; [exact (proj1 H) | exact (proj1 (proj2 H))].
Defined.


End AdapterScenarios.

(** ** The entity: factories and DTO *)

Lemma decodeUTF8_digits (d : Decimal.uint) :
  utf16 (NilEmpty.string_of_uint d)
  = map N_of_ascii (list_ascii_of_string (NilEmpty.string_of_uint d)).
Proof.
  unfold utf16. induction d; cbn [NilEmpty.string_of_uint list_ascii_of_string map];
    [reflexivity | ..];
    cbn [decodeUTF8 N_of_ascii N_of_digits N.add N.mul N.ltb N.compare Pos.compare
         Pos.compare_cont Pos.add Pos.mul Pos.succ];
    f_equal; exact IHd.
Qed.

Lemma indexToString_inj (i j : nat) : indexToString i = indexToString j -> i = j.
Proof.
  unfold indexToString. rewrite !decodeUTF8_digits. intro H.
  assert (Hs : NilEmpty.string_of_uint (Nat.to_uint i)
               = NilEmpty.string_of_uint (Nat.to_uint j)).
  { rewrite <- (string_of_list_ascii_of_string (NilEmpty.string_of_uint (Nat.to_uint i))),
      <- (string_of_list_ascii_of_string (NilEmpty.string_of_uint (Nat.to_uint j))).
    f_equal.
    revert H. generalize (list_ascii_of_string (NilEmpty.string_of_uint (Nat.to_uint i))).
    generalize (list_ascii_of_string (NilEmpty.string_of_uint (Nat.to_uint j))).
    intros l2 l1; revert l2; induction l1 as [|a l1 IH]; intros [|b l2]; cbn [map];
      try discriminate; [reflexivity|].
    intros [= Hab Hrest]. f_equal; [|auto].
    rewrite <- (ascii_N_embedding a), <- (ascii_N_embedding b), Hab. reflexivity. }
  apply (f_equal NilEmpty.uint_of_string) in Hs. rewrite !NilEmpty.usu in Hs.
  injection Hs as Hs. apply (f_equal Nat.of_uint) in Hs.
  rewrite !DecimalNat.Unsigned.of_to in Hs. exact Hs.
Qed.

Section EntityFactories.
Context {runtime : Runtime} {imports : Imports}.

Lemma mapWithIndex_nth_error {A : Type} (callback : JSValue -> nat -> Outcome A)
    (elements : list JSValue) (index : nat) (results : list A) :
  mapWithIndex callback elements index = Ok results ->
  forall i x,
    nth_error results i = Some x ->
    exists element,
      nth_error elements i = Some element /\ callback element (index + i) = Ok x.
Proof.
  revert index results; induction elements as [|element rest IH];
    intros index results; cbn [mapWithIndex].
  - intros [= <-] [|i] x; discriminate.
  - destruct (callback element index) as [y|e] eqn:Hy; cbn [bind]; [|discriminate].
    destruct (mapWithIndex callback rest (S index)) as [ys|e] eqn:Hrest;
      cbn [bind]; [|discriminate].
    intros [= <-] [|i] x; cbn [nth_error].
    + intros [= <-]. exists element. rewrite Nat.add_0_r. auto.
    + intro Hx. destruct (IH _ _ Hrest i x Hx) as (el & Hel & Hcall).
      exists el. rewrite Nat.add_succ_r. auto.
Qed.

Lemma mapWithIndex_first_error {A : Type} (callback : JSValue -> nat -> Outcome A)
    (good : list JSValue) (bad : JSValue) (rest : list JSValue) (index : nat)
    (e : JSError) :
  (forall i element,
      nth_error good i = Some element -> exists x, callback element (index + i) = Ok x) ->
  callback bad (index + List.length good) = Thrown e ->
  mapWithIndex callback (good ++ bad :: rest) index = Thrown e.
Proof.
  revert index; induction good as [|g good IH]; intros index Hgood Hbad;
    cbn [app mapWithIndex List.length] in *.
  - rewrite Nat.add_0_r in Hbad. rewrite Hbad. reflexivity.
  - destruct (Hgood 0 g eq_refl) as [x Hx]. rewrite Nat.add_0_r in Hx.
    rewrite Hx; cbn [bind]. rewrite IH; [reflexivity | |].
    + intros i element Hi. specialize (Hgood (S i) element Hi).
      rewrite Nat.add_succ_r in Hgood. exact Hgood.
    + rewrite Nat.add_succ_r in Hbad. exact Hbad.
Qed.

(** What a successful call of the factory went through. *)
Lemma fromAIOutput_Ok (now : Date) (id input : JSValue) (series : HabitSeries) :
  fromAIOutput now id input = Ok series ->
  exists items,
    field input (lit "actions") = JSArray items
    /\ mapWithIndex (fun actionInput index =>
                       Action_fromAIOutput actionInput
                         (ToString id ++ lit "_action_" ++ indexToString index))
         items 0
       = Ok (actions series)
    /\ series = mkHabitSeries id (field input (lit "title"))
                  (field input (lit "description")) (actions series)
                  Rank_BRONZE 0 now now.
Proof.
  unfold fromAIOutput.
  generalize (lit "actions") (lit "title") (lit "description") (lit "_action_").
  intros kActions kTitle kDescription infix H.
  destruct (get input kActions) as [inputActions|e] eqn:Hget; cbn [bind] in H;
    [|discriminate].
  apply get_Ok in Hget as [-> Hfield]. rewrite !Hfield in H.
  match type of H with
  | context [callMap ?v ?f] =>
      destruct (callMap v f) as [built|e] eqn:Hmap; cbn [bind] in H;
        [|discriminate]
  end.
  apply callMap_Ok in Hmap as (items & Hitems & Hmap).
  injection H as <-. exists items. cbn [actions]. auto.
Qed.

(** X21.  The factory and the DTO mapping together: the DTO of a series
    built from an AI output carries the identifier given, the title and
    description of the output, one action per action of the output,
    rank BRONZE, score 0, and the instant of creation, in ISO form, as
    both of its dates. *)
Theorem fromAIOutput_toDTO (now : Date) (id input : JSValue) (series : HabitSeries) :
  fromAIOutput now id input = Ok series ->
  dto_id (toDTO series) = id
  /\ dto_title (toDTO series) = field input (lit "title")
  /\ dto_description (toDTO series) = field input (lit "description")
  /\ List.length (dto_actions (toDTO series))
     = List.length (elementsOf (field input (lit "actions")))
  /\ dto_rank (toDTO series) = Rank_BRONZE
  /\ dto_totalScore (toDTO series) = 0%float
  /\ dto_createdAt (toDTO series) = Date_toISOString now
  /\ dto_lastActivityAt (toDTO series) = Date_toISOString now.
Proof.
  intro H. destruct (fromAIOutput_Ok _ _ _ H) as (items & Hitems & Hmap & Hseries).
  apply mapWithIndex_length in Hmap.
  rewrite Hseries. unfold toDTO. simpl.
  rewrite length_map, Hitems. cbn [elementsOf].
  repeat (split; [reflexivity|]). split; [exact Hmap|]. repeat split.
Qed.

(** X22.  Each action of a new series is built from the action at the same
    position of the output, under the identifier
    [`${id}_action_${index}`]; identifiers of different positions
    differ. *)
Theorem fromAIOutput_action_ids (now : Date) (id input : JSValue)
    (series : HabitSeries) :
  fromAIOutput now id input = Ok series ->
  (forall index action,
      nth_error (actions series) index = Some action ->
      exists actionInput,
        nth_error (elementsOf (field input (lit "actions"))) index = Some actionInput
        /\ Action_fromAIOutput actionInput
             (ToString id ++ lit "_action_" ++ indexToString index)
           = Ok action)
  /\ (forall i j,
        ToString id ++ lit "_action_" ++ indexToString i
        = ToString id ++ lit "_action_" ++ indexToString j ->
        i = j).
Proof.
  intro H. destruct (fromAIOutput_Ok _ _ _ H) as (items & Hitems & Hmap & _).
  split.
  - intros index action Hnth. rewrite Hitems; cbn [elementsOf].
    exact (mapWithIndex_nth_error _ _ _ Hmap index Hnth).
  - intros i j Hij. apply app_inv_head in Hij. apply app_inv_head in Hij.
    apply indexToString_inj, Hij.
Qed.

(** X23.  The first action the Action value object refuses ends the factory
    with that very error, whatever the later actions are. *)
Theorem fromAIOutput_first_action_error (now : Date) (id input : JSValue)
    (good : list JSValue) (bad : JSValue) (rest : list JSValue) (e : JSError) :
  field input (lit "actions") = JSArray (good ++ bad :: rest) ->
  (forall index actionInput,
      nth_error good index = Some actionInput ->
      exists action,
        Action_fromAIOutput actionInput
          (ToString id ++ lit "_action_" ++ indexToString index)
        = Ok action) ->
  Action_fromAIOutput bad
    (ToString id ++ lit "_action_" ++ indexToString (List.length good))
  = Thrown e ->
  fromAIOutput now id input = Thrown e.
Proof.
  intros Hactions Hgood Hbad.
  assert (Hobj : isObject input = true).
  { destruct input; try discriminate Hactions; reflexivity. }
  unfold fromAIOutput. rewrite !(get_field _ _ Hobj); cbn [bind].
  rewrite Hactions; cbn [callMap].
  rewrite (mapWithIndex_first_error _ good bad rest 0 (e := e)); auto.
Qed.

(** X24.  Without an array under [actions] the factory builds nothing: it
    ends in a [TypeError]. *)
Theorem fromAIOutput_requires_actions_array (now : Date) (id input : JSValue) :
  (forall items, field input (lit "actions") <> JSArray items) ->
  exists e, fromAIOutput now id input = Thrown e /\ errClass e = TypeError.
Proof.
  intro Hactions. unfold fromAIOutput.
  destruct input as [ | |b|x|s|elements|properties]; cbn [get bind callMap];
    try (eexists; split; reflexivity).
  cbn [field] in Hactions.
  destruct (lookup _ properties) as [[ | |b|x|s|items|inner]|]; cbn [callMap bind];
    try (eexists; split; reflexivity).
  destruct (Hactions items eq_refl).
Qed.

(** X25.  The two factories agree on the defaults: what [fromAIOutput]
    builds is what [create] builds, at the same instant, from the same
    identifier, title, description and actions with every optional
    field left out. *)
Theorem fromAIOutput_is_create_with_defaults (now : Date) (id input : JSValue)
    (series : HabitSeries) :
  fromAIOutput now id input = Ok series ->
  create now
    (mkCreateParams id (field input (lit "title")) (field input (lit "description"))
       (actions series) None None None None)
  = series.
Proof.
  intro H. destruct (fromAIOutput_Ok _ _ _ H) as (items & _ & _ & Hseries).
  rewrite Hseries at 2. reflexivity.
Qed.

End EntityFactories.

(** ** The factories on the sample output *)

Section EntityScenarios.

#[local] Existing Instance Host.runtime.
#[local] Existing Instance Sample.imports.

Lemma fromAIOutput_toDTO_witness :
  exists series,
    fromAIOutput 1762018380123%Z (JSString (lit "series-1")) Sample.readDailyParsed
    = Ok series
    /\ dto_id (toDTO series) = JSString (lit "series-1")
    /\ dto_title (toDTO series) = field Sample.readDailyParsed (lit "title")
    /\ dto_description (toDTO series) = field Sample.readDailyParsed (lit "description")
    /\ List.length (dto_actions (toDTO series))
       = List.length (elementsOf (field Sample.readDailyParsed (lit "actions")))
    /\ dto_rank (toDTO series) = Sample.BRONZE
    /\ dto_totalScore (toDTO series) = 0%float
    /\ dto_createdAt (toDTO series) = Host.toISOString 1762018380123%Z
    /\ dto_lastActivityAt (toDTO series) = Host.toISOString 1762018380123%Z.
Proof.
  eexists. split; [vm_compute; reflexivity|].
  match goal with
  | |- dto_id (toDTO ?series) = _ /\ _ =>
      exact (@fromAIOutput_toDTO Host.runtime Sample.imports
               1762018380123%Z (JSString (lit "series-1"))
               Sample.readDailyParsed series
               ltac:(vm_compute; reflexivity))
  end.
Defined.

Lemma fromAIOutput_action_ids_witness :
  exists series,
    fromAIOutput 1762018380123%Z (JSString (lit "series-1")) Sample.readDailyParsed
    = Ok series
    /\ (forall index action,
          nth_error (actions series) index = Some action ->
          exists actionInput,
            nth_error (elementsOf (field Sample.readDailyParsed (lit "actions"))) index
            = Some actionInput
            /\ Sample.Action_fromAIOutput actionInput
                 (Host.toString (JSString (lit "series-1")) ++ lit "_action_"
                    ++ indexToString index)
               = Ok action).
Proof.
  eexists. split; [vm_compute; reflexivity|].
  match goal with
  | |- forall index action, nth_error (actions ?series) index = _ -> _ =>
      exact (proj1 (@fromAIOutput_action_ids Host.runtime Sample.imports
                      1762018380123%Z (JSString (lit "series-1"))
                      Sample.readDailyParsed series
                      ltac:(vm_compute; reflexivity)))
  end.
Defined.

Lemma fromAIOutput_first_action_error_witness :
  fromAIOutput 0%Z (JSString (lit "s"))
    (JSObject [(lit "actions",
                JSArray ([Sample.readDailyAction "a" "easy"]
                         ++ JSNull :: [JSNumber 1]))])
  = Thrown (mkError TypeError (lit "Cannot read properties of null (reading 'name')")).
Proof.
  refine (@fromAIOutput_first_action_error Host.runtime Sample.imports
            0%Z (JSString (lit "s"))
            (JSObject [(lit "actions",
                        JSArray ([Sample.readDailyAction "a" "easy"]
                                 ++ JSNull :: [JSNumber 1]))])
            [Sample.readDailyAction "a" "easy"] JSNull [JSNumber 1]
            (mkError TypeError (lit "Cannot read properties of null (reading 'name')"))
            eq_refl _ _).
  - intros [|[|index]] actionInput H; try discriminate H.
    injection H as <-. eexists. vm_compute; reflexivity.
  - vm_compute; reflexivity.
Defined.

Lemma fromAIOutput_requires_actions_array_witness :
  exists e,
    fromAIOutput 0%Z (JSString (lit "s"))
      (JSObject [(lit "title", JSString (lit "T")); (lit "actions", JSString (lit "none"))])
    = Thrown e
    /\ errClass e = TypeError.
Proof.
  refine (@fromAIOutput_requires_actions_array Host.runtime Sample.imports
            0%Z (JSString (lit "s"))
            (JSObject [(lit "title", JSString (lit "T"));
                       (lit "actions", JSString (lit "none"))]) _).
  intros items H. discriminate H.
Defined.

Lemma fromAIOutput_is_create_with_defaults_witness :
  exists series,
    fromAIOutput 1762018380123%Z (JSString (lit "series-1")) Sample.readDailyParsed
    = Ok series
    /\ create 1762018380123%Z
         (mkCreateParams (JSString (lit "series-1"))
            (field Sample.readDailyParsed (lit "title"))
            (field Sample.readDailyParsed (lit "description"))
            (actions series) None None None None)
       = series.
Proof.
  eexists. split; [vm_compute; reflexivity|].
  match goal with
  | |- create _ _ = ?series =>
      exact (@fromAIOutput_is_create_with_defaults Host.runtime Sample.imports
               1762018380123%Z (JSString (lit "series-1"))
               Sample.readDailyParsed series
               ltac:(vm_compute; reflexivity))
  end.
Defined.

End EntityScenarios.

(** ** The creative prompt *)

Lemma Ok_inj {A : Type} (a b : A) : Ok a = Ok b -> a = b.
Proof. congruence. Qed.

Section PromptProperties.
Context {imports : Imports} {vendor : Vendor}.

(** X26.  English is the only language the prompt knows by name: every
    other language code gets the Spanish prompt, the one for "es". *)
Theorem CreativeHabitSeriesPrompt_language_fallback
    (language assistantContext : jsstring) (testData : list (jsstring * jsstring)) :
  language <> lit "en" ->
  CreativeHabitSeriesPrompt language assistantContext testData
  = CreativeHabitSeriesPrompt (lit "es") assistantContext testData.
Proof.
  intro H. apply eqb_neq in H. unfold CreativeHabitSeriesPrompt.
  rewrite H.
  replace (JS.eqb (lit "es") (lit "en")) with false by reflexivity.
  reflexivity.
Qed.

(** X27.  An assistant context made of white space only is left out of the
    prompt altogether: the messages are those of an empty context. *)
Theorem CreativeHabitSeriesPrompt_blank_context
    (language assistantContext : jsstring) (testData : list (jsstring * jsstring)) :
  forallb isWhiteSpace assistantContext = true ->
  CreativeHabitSeriesPrompt language assistantContext testData
  = CreativeHabitSeriesPrompt language [] testData.
Proof.
  intro H. apply trim_nil in H. unfold CreativeHabitSeriesPrompt.
  rewrite H.
  replace (trim []) with (@nil N) by reflexivity.
  cbn [truthy]. reflexivity.
Qed.

(** Where the context section sits in the system prompt. *)
Lemma contextSection_infix (a p1 p2 p3 p4 p5 p6 context t1 t2 t3 more : jsstring) :
  a ++ (p1 ++ p2 ++ p3 ++ p4 ++ p5 ++ p6 ++ context ++ t1 ++ t2 ++ t3) ++ more
  = (a ++ p1 ++ p2 ++ p3 ++ p4 ++ p5 ++ p6) ++ context ++ (t1 ++ t2 ++ t3 ++ more).
Proof. rewrite <- !app_assoc. reflexivity. Qed.

Lemma sanitize_system_user (system userPrompt : jsstring) (sanitized : list Message) :
  mapMessages sanitizeMessage
    [mkMessage (lit "system") system; mkMessage (lit "user") userPrompt]
  = Ok sanitized ->
  exists userText,
    sanitizeUserInput userPrompt = Ok userText
    /\ sanitized = [mkMessage (lit "system") system; mkMessage (lit "user") userText]
    /\ geminiPrompt sanitized
       = lit "[SYSTEM INSTRUCTIONS]" ++ nl ++ system ++ nl ++ nl ++ userText.
Proof.
  cbn [mapMessages sanitizeMessage bind role content JS.eqb N.eqb Pos.eqb andb].
  destruct (sanitizeUserInput userPrompt) as [userText|e]; cbn [bind];
    [|discriminate].
  intro H. apply Ok_inj in H. subst sanitized.
  exists userText. split; [reflexivity|]. split; [reflexivity|].
  unfold geminiPrompt.
  cbn [map renderMessage role content join JS.eqb N.eqb Pos.eqb andb].
  rewrite <- !app_assoc. reflexivity.
Qed.

(** X28.  The creative prompt through the Gemini adapter.  The
    system message is the same whatever the test data are, and a
    context that is not blank sits in it word for word: the adapter
    trusts that message and does not sanitize it.  The test data sit in
    the user message, as ["Test data: k: v; k: v ..."] (in Spanish,
    ["Datos del test: ..."]), and reach the vendor only as what the
    sanitizer makes of that message. *)
Theorem CreativeHabitSeriesPrompt_sanitized (language assistantContext : jsstring) :
  trim assistantContext <> [] ->
  exists before after,
    forall (testData : list (jsstring * jsstring)) (sanitized : list Message),
      mapMessages sanitizeMessage
        (CreativeHabitSeriesPrompt language assistantContext testData)
      = Ok sanitized ->
      let system := before ++ assistantContext ++ after in
      let userPrompt :=
        (if JS.eqb language (lit "en") then lit "Test data: "
         else lit "Datos del test: ")
        ++ join (lit "; ") (map (fun '(k, v) => k ++ lit ": " ++ v) testData) in
      CreativeHabitSeriesPrompt language assistantContext testData
      = [mkMessage (lit "system") system; mkMessage (lit "user") userPrompt]
      /\ exists userText,
           sanitizeUserInput userPrompt = Ok userText
           /\ sanitized
              = [mkMessage (lit "system") system; mkMessage (lit "user") userText]
           /\ geminiPrompt sanitized
              = lit "[SYSTEM INSTRUCTIONS]" ++ nl ++ system ++ nl ++ nl ++ userText.
Proof.
  intros Hcontext. unfold CreativeHabitSeriesPrompt.
  destruct (trim assistantContext) as [|c rest] eqn:Htrim; [congruence|].
  cbn [truthy].
  destruct (JS.eqb language _);
    rewrite contextSection_infix;
    match goal with
    | |- context [mkMessage _ (?before ++ assistantContext ++ ?after)] =>
        exists before, after
    end;
    intros testData sanitized H; cbv zeta;
    destruct (sanitize_system_user _ _ H) as (userText & Huser & Hs & Hprompt);
    (split; [reflexivity|]); exists userText;
    (split; [exact Huser|]); (split; [exact Hs|]); exact Hprompt.
Qed.

End PromptProperties.

Section PromptScenarios.

#[local] Existing Instance Sample.imports.
#[local] Existing Instance SampleVendor.vendor.

Lemma CreativeHabitSeriesPrompt_language_fallback_witness :
  lit "fr" <> lit "en"
  /\ CreativeHabitSeriesPrompt (lit "fr") [] [(lit "habit", lit "reading")]
     = CreativeHabitSeriesPrompt (lit "es") [] [(lit "habit", lit "reading")].
Proof.
  assert (H : lit "fr" <> lit "en") by discriminate.
  split; [exact H|].
  exact (@CreativeHabitSeriesPrompt_language_fallback Sample.imports
           (lit "fr") [] [(lit "habit", lit "reading")] H).
Defined.

Lemma CreativeHabitSeriesPrompt_blank_context_witness :
  forallb isWhiteSpace [32; 10; 9]%N = true
  /\ CreativeHabitSeriesPrompt (lit "en") [32; 10; 9]%N [(lit "habit", lit "reading")]
     = CreativeHabitSeriesPrompt (lit "en") [] [(lit "habit", lit "reading")].
Proof.
  split; [reflexivity|].
  exact (@CreativeHabitSeriesPrompt_blank_context Sample.imports
           (lit "en") [32; 10; 9]%N [(lit "habit", lit "reading")] eq_refl).
Defined.

Lemma CreativeHabitSeriesPrompt_sanitized_witness :
  trim (lit "likes tea") <> []
  /\ exists before after,
       forall (testData : list (jsstring * jsstring)) (sanitized : list Message),
         mapMessages sanitizeMessage
           (CreativeHabitSeriesPrompt (lit "en") (lit "likes tea") testData)
         = Ok sanitized ->
         let system := before ++ lit "likes tea" ++ after in
         let userPrompt :=
           (if JS.eqb (lit "en") (lit "en") then lit "Test data: "
            else lit "Datos del test: ")
           ++ join (lit "; ") (map (fun '(k, v) => k ++ lit ": " ++ v) testData) in
         CreativeHabitSeriesPrompt (lit "en") (lit "likes tea") testData
         = [mkMessage (lit "system") system; mkMessage (lit "user") userPrompt]
         /\ exists userText,
              sanitizeUserInput userPrompt = Ok userText
              /\ sanitized
                 = [mkMessage (lit "system") system; mkMessage (lit "user") userText]
              /\ geminiPrompt sanitized
                 = lit "[SYSTEM INSTRUCTIONS]" ++ nl ++ system ++ nl ++ nl ++ userText.
Proof.
  assert (H : trim (lit "likes tea") <> [])
    by (intro H; vm_compute in H; discriminate H).
  split; [exact H|].
  exact (@CreativeHabitSeriesPrompt_sanitized Sample.imports SampleVendor.vendor
           (lit "en") (lit "likes tea") H).
Defined.

(** The sample request through the sample sanitizer, which trims. *)
Lemma CreativeHabitSeriesPrompt_sample_sanitized :
  exists system,
    mapMessages sanitizeMessage
      (CreativeHabitSeriesPrompt (lit "en") (lit "likes tea")
         [(lit "habit", lit "reading ")])
    = Ok [ mkMessage (lit "system") system;
           mkMessage (lit "user") (lit "Test data: habit: reading") ].
Proof. eexists. vm_compute. reflexivity. Qed.

End PromptScenarios.

(** ** The token estimate, exactly *)

Lemma checkFrom_spec (fuel : nat) (k : Z) :
  checkFrom fuel k = true ->
  forall n, (k <= n < k + Z.of_nat fuel)%Z -> tokensFormula n = true.
Proof.
  revert k; induction fuel as [|fuel IH]; intros k H n Hn; [lia|].
  cbn [checkFrom] in H. apply andb_true_iff in H as [Hk Hrest].
  destruct (Z.eq_dec n k) as [->|Hne]; [exact Hk|].
  apply (IH (k + 1)%Z Hrest). lia.
Qed.

Lemma checkFrom_100000 : checkFrom (Z.to_nat 100000) 1 = true.
Proof. vm_compute; reflexivity. Qed.

(** X29.  For every text of up to 100000 code units the binary64
    computation [Math.round(text.length / 3.7)] gives the exact count:
    the length divided by 3.7 and rounded to the closest integer, which
    is the integer quotient of [20 * length + 37] by 74. *)
Theorem calculateGeminiTokens_exact (text : jsstring) :
  (Z.of_nat (List.length text) <= 100000)%Z ->
  calculateGeminiTokens (JSString text)
  = Number_ofZ ((20 * Z.of_nat (List.length text) + 37) / 74).
Proof.
  intro Hbound. rewrite calculateGeminiTokens_length.
  destruct (List.length text) as [|n] eqn:Hlength; [vm_compute; reflexivity|].
  change (tokensOfLength (S n))
    with (Math_round (Number_ofZ (Z.of_nat (S n)) / 0x1.d99999999999ap+1)%float).
  apply FloatAxioms.Leibniz.eqb_spec.
  apply (@checkFrom_spec _ _ checkFrom_100000).
  rewrite Z2Nat.id by lia. lia.
Qed.

Lemma calculateGeminiTokens_exact_witness :
  (Z.of_nat (List.length (lit "Read 5 pages")) <= 100000)%Z
  /\ calculateGeminiTokens (JSString (lit "Read 5 pages"))
     = Number_ofZ ((20 * Z.of_nat (List.length (lit "Read 5 pages")) + 37) / 74).
Proof.
  assert (H : (Z.of_nat (List.length (lit "Read 5 pages")) <= 100000)%Z)
    by (apply Z.leb_le; vm_compute; reflexivity).
  split; [exact H|].
  exact (calculateGeminiTokens_exact (lit "Read 5 pages") H).
Defined.
